(** * GPortal metadata service of cloudbase-init

    A shallow embedding of [cloudbaseinit/metadata/services/gportal.py]
    (class [GPortalService]) and the properties of its fetch / parse /
    normalise pipeline.

    Python values are modelled dynamically: the metadata document is whatever
    [json.loads] produced, every attribute access or indexing that Python
    would reject raises, and the loops are written with the accumulators the
    source mutates. *)

From Stdlib Require Import List String Ascii Bool ZArith NArith Lia.
From Stdlib Require Import Strings.Byte Floats DecimalString DecimalNat.
Import ListNotations.

Set Implicit Arguments.
Set Warnings "-register-all".
Local Open Scope list_scope.

(** ** Python strings

    A Python [str] is a sequence of Unicode code points.  ASCII literals of
    the source are written [lit "..."]. *)

Definition pystr := list N.

Definition lit (s : string) : pystr :=
  map N_of_ascii (list_ascii_of_string s).

Fixpoint str_eqb (s t : pystr) : bool :=
  match s, t with
  | [], [] => true
  | c :: s', d :: t' => N.eqb c d && str_eqb s' t'
  | _, _ => false
  end.

(** [str(i)] for a non-negative [int]. *)
Definition str_of_nat (i : nat) : pystr :=
  lit (NilEmpty.string_of_uint (Nat.to_uint i)).

(** [str.isspace] on one code point: the characters [str.strip()] removes. *)
Definition is_space (c : N) : bool :=
  ((9 <=? c) && (c <=? 13) || (28 <=? c) && (c <=? 32)
   || (c =? 133) || (c =? 160) || (c =? 5760)
   || (8192 <=? c) && (c <=? 8202)
   || (c =? 8232) || (c =? 8233) || (c =? 8239) || (c =? 8287)
   || (c =? 12288))%N.

Fixpoint lstrip (s : pystr) : pystr :=
  match s with
  | c :: s' => if is_space c then lstrip s' else s
  | [] => []
  end.

Definition rstrip (s : pystr) : pystr := rev (lstrip (rev s)).

(** [s.strip()] *)
Definition strip (s : pystr) : pystr := rstrip (lstrip s).

(** ** UTF-8, as [str.encode()] produces it (strict error handling) *)

Definition byte_of_N (n : N) : byte :=
  match Byte.of_N n with Some b => b | None => x00 end.

(** The continuation byte carrying bits [6k+5 .. 6k] of [c]. *)
Definition cont_byte (c : N) (k : N) : byte :=
  byte_of_N (N.lor 128 (N.land (N.shiftr c (6 * k)) 63)).

(** One code point; [None] is [UnicodeEncodeError] (a lone surrogate). *)
Definition utf8_encode_cp (c : N) : option (list byte) :=
  if (c <? 128)%N then Some [byte_of_N c]
  else if (c <? 2048)%N then
    Some [byte_of_N (N.lor 192 (N.shiftr c 6)); cont_byte c 0]
  else if (c <? 65536)%N then
    if (55296 <=? c)%N && (c <=? 57343)%N then None
    else Some [byte_of_N (N.lor 224 (N.shiftr c 12)); cont_byte c 1;
               cont_byte c 0]
  else if (c <? 1114112)%N then
    Some [byte_of_N (N.lor 240 (N.shiftr c 18)); cont_byte c 2;
          cont_byte c 1; cont_byte c 0]
  else None.

Fixpoint utf8_encode (s : pystr) : option (list byte) :=
  match s with
  | [] => Some []
  | c :: s' =>
      match utf8_encode_cp c, utf8_encode s' with
      | Some b, Some bs => Some (b ++ bs)
      | _, _ => None
      end
  end.

(** ** Python values, as [json.loads] builds them

    A [dict] keeps its keys in insertion order, which for a parsed document is
    document order; it is an association list read by first match.  The keys
    of a [dict] are distinct: a statement that depends on it assumes [NoDup]
    of the keys. *)

Inductive value : Type :=
| VNone
| VBool (b : bool)
| VInt (z : Z)
| VFloat (f : float)
| VStr (s : pystr)
| VList (l : list value)
| VDict (d : list (pystr * value)).

(** [bool(v)]: what [if not v] tests. *)
Definition truthy (v : value) : bool :=
  match v with
  | VNone => false
  | VBool b => b
  | VInt z => negb (z =? 0)%Z
  | VFloat f => negb (f =? 0)%float
  | VStr s => match s with [] => false | _ => true end
  | VList l => match l with [] => false | _ => true end
  | VDict d => match d with [] => false | _ => true end
  end.

(** ** Exceptions

    The service tells [requests.RequestException] from every other
    [Exception]; no other distinction is ever made, so the exceptions of the
    builtins ([TypeError], [AttributeError], [IndexError], [KeyError],
    [ValueError], ...) share one constructor. *)

Inductive exn : Type :=
| RequestException (response : option Z)
    (* [ex.response] is [None] or a response with this [status_code] *)
| OtherException.

Inductive result (A : Type) : Type :=
| Ok (a : A)
| Raise (e : exn).

Arguments Ok {A} a.
Arguments Raise {A} e.

Definition bind {A B : Type} (r : result A) (k : A -> result B) : result B :=
  match r with
  | Ok a => k a
  | Raise e => Raise e
  end.

Declare Scope py_scope.
Delimit Scope py_scope with py.
Notation "x <- c ;; k" := (bind c (fun x => k))
  (at level 61, c at next level, right associativity) : py_scope.
Local Open Scope py_scope.

(** ** Builtin operations on values *)

Fixpoint dict_lookup (d : list (pystr * value)) (k : pystr) : option value :=
  match d with
  | [] => None
  | (k', v) :: d' => if str_eqb k' k then Some v else dict_lookup d' k
  end.

(** [v.get(k, default)]: only a [dict] has the method. *)
Definition py_get (v : value) (k : pystr) (default : value) : result value :=
  match v with
  | VDict d =>
      Ok (match dict_lookup d k with Some x => x | None => default end)
  | _ => Raise OtherException
  end.

(** [d[k]] on a [dict]. *)
Definition dict_getitem (d : list (pystr * value)) (k : pystr) : result value :=
  match dict_lookup d k with
  | Some x => Ok x
  | None => Raise OtherException
  end.

(** [v[0]]: a non-empty list gives its first element and a non-empty string
    its first character, as a string.  Everything else raises: the empty list
    and the empty string ([IndexError]), a dict (the keys of a parsed document
    are strings, [KeyError]), [None], booleans and numbers ([TypeError]). *)
Definition py_index0 (v : value) : result value :=
  match v with
  | VList (x :: _) => Ok x
  | VStr (c :: _) => Ok (VStr [c])
  | _ => Raise OtherException
  end.

(** [iter(v)] run to the end: the items a [for] loop visits. *)
Definition py_iter (v : value) : result (list value) :=
  match v with
  | VList l => Ok l
  | VDict d => Ok (map (fun kv => VStr (fst kv)) d)
  | VStr s => Ok (map (fun c => VStr [c]) s)
  | _ => Raise OtherException
  end.

(** ** The network model

    The named tuples of [cloudbaseinit.models.network] that the service
    builds; a field the service fills with a value of the document keeps the
    type [value]. *)

Module network_model.

Inductive link_type : Type :=
| LINK_TYPE_PHYSICAL
| LINK_TYPE_BOND
| LINK_TYPE_VLAN.

Record Link : Type := {
  id : pystr;
  name : pystr;
  type : link_type;
  enabled : bool;
  mac_address : pystr;
  mtu : value;
  bond : value;
  vlan_link : value;
  vlan_id : value
}.

Record Route : Type := {
  network_cidr : value;
  gateway : value
}.

Record Network : Type := {
  link : pystr;
  address_cidr : value;
  routes : list Route;
  dns_nameservers : value
}.

Record NameServerService : Type := {
  addresses : value;
  search : value
}.

Record NetworkDetailsV2 : Type := {
  links : list Link;
  networks : list Network;
  services : list NameServerService
}.

End network_model.

(** ** The getters and the topology mapper

    Every method starts from [self._get_meta_data()]; the cached document is
    written once, so within a method each call returns the same value [md]
    (the tests patch [_get_meta_data] to return the document). *)

Section Mapper.

(** [str.upper]: the Unicode case mapping of the interpreter. *)
Variable str_upper : pystr -> pystr.

(** [network_utils.ip_netmask_to_cidr(address, netmask)] of
    [cloudbaseinit.utils.network], which may raise on what it cannot
    parse. *)
Variable ip_netmask_to_cidr : value -> value -> result value.

(** [v.upper()]: only a [str] has the method. *)
Definition py_upper (v : value) : result pystr :=
  match v with
  | VStr s => Ok (str_upper s)
  | _ => Raise OtherException
  end.

(** [get_instance_id] *)
Definition get_instance_id (md : value) : result value :=
  py_get md (lit "id") VNone.

(** [get_host_name] *)
Definition get_host_name (md : value) : result value :=
  py_get md (lit "fqdn") VNone.

(** [get_public_keys] *)
Definition get_public_keys (md : value) : result value :=
  py_get md (lit "public_keys") (VList []).

(** [can_post_password] *)
Definition can_post_password : bool := false.

(** [get_user_data]: [data.encode()] exists on a [str] only and raises
    [UnicodeEncodeError] on a lone surrogate; falling off the end of the
    method returns [None]. *)
Definition get_user_data (md : value) : result (option (list byte)) :=
  data <- py_get md (lit "user_data") VNone ;;
  if truthy data then
    match data with
    | VStr s =>
        match utf8_encode s with
        | Some b => Ok (Some b)
        | None => Raise OtherException
        end
    | _ => Raise OtherException
    end
  else Ok None.

(** The body of [for t in interfaces_config] in [_net_parse_links], over the
    keys [ts] still to visit, with the counter [i] and the list [links]
    built so far. *)
Fixpoint links_loop (interfaces_config : list (pystr * value))
    (ts : list pystr) (i : nat) (links : list network_model.Link)
    : result (list network_model.Link) :=
  match ts with
  | [] => Ok links
  | t :: ts' =>
      let i := S i in
      descriptors <- dict_getitem interfaces_config t ;;
      nic <- py_index0 descriptors ;;
      mac <- py_get nic (lit "mac") VNone ;;
      mac_upper <- py_upper mac ;;
      nic_mtu <- py_get nic (lit "mtu") (VInt 1500) ;;
      let link := {|
        network_model.id := lit "interface" ++ str_of_nat i;
        network_model.name := lit "Network " ++ t;
        network_model.type := network_model.LINK_TYPE_PHYSICAL;
        network_model.enabled := true;
        network_model.mac_address := mac_upper;
        network_model.mtu := nic_mtu;
        network_model.bond := VNone;
        network_model.vlan_link := VNone;
        network_model.vlan_id := VNone
      |} in
      links_loop interfaces_config ts' i (links ++ [link])
  end.

(** [_net_parse_links].  A truthy [interfaces] that is not a mapping always
    raises: a number or [True] is not iterable; a string is indexed by its
    own first character; a list is indexed by its own elements, which must
    all be integers for the indexing to succeed, and then the element
    selected is an integer and [[0]] on it fails. *)
Definition _net_parse_links (md : value)
    : result (list network_model.Link) :=
  let links := [] in
  interfaces_config <- py_get md (lit "interfaces") VNone ;;
  if negb (truthy interfaces_config) then Ok links
  else
    match interfaces_config with
    | VDict d => links_loop d (map fst d) 0 links
    | _ => Raise OtherException
    end.

(** [for r in additional_routes: routes.append(Route(...))] *)
Fixpoint routes_loop (rs : list value) (routes : list network_model.Route)
    : result (list network_model.Route) :=
  match rs with
  | [] => Ok routes
  | r :: rs' =>
      destination <- py_get r (lit "destination") VNone ;;
      gw <- py_get r (lit "gateway") VNone ;;
      routes_loop rs'
        (routes ++ [{| network_model.network_cidr := destination;
                       network_model.gateway := gw |}])
  end.

(** The body of [for ip_version in ['ipv4', 'ipv6']] for one interface. *)
Fixpoint ip_version_loop (dns_config additional_routes : value)
    (nic_type : pystr) (nic : value) (ip_versions : list pystr)
    (networks : list network_model.Network)
    : result (list network_model.Network) :=
  match ip_versions with
  | [] => Ok networks
  | ip_version :: ip_versions' =>
      subnet <- py_get nic ip_version VNone ;;
      if negb (truthy subnet) then
        ip_version_loop dns_config additional_routes nic_type nic
          ip_versions' networks
      else
        let default_gateway_cidr :=
          if str_eqb ip_version (lit "ipv4") then lit "0.0.0.0/0"
          else lit "::/0" in
        public <-
          (if str_eqb nic_type (lit "public") then
             gw <- py_get subnet (lit "gateway") VNone ;;
             nameservers <- py_get dns_config (lit "nameservers") (VList []) ;;
             Ok ([{| network_model.network_cidr := VStr default_gateway_cidr;
                     network_model.gateway := gw |}], nameservers)
           else Ok ([], VList [])) ;;
        let '(routes, nameservers) := public in
        rs <- py_iter additional_routes ;;
        routes <- routes_loop rs routes ;;
        address <- py_get subnet (lit "address") VNone ;;
        netmask <- py_get subnet (lit "netmask") VNone ;;
        cidr <- ip_netmask_to_cidr address netmask ;;
        ip_version_loop dns_config additional_routes nic_type nic
          ip_versions'
          (networks ++ [{| network_model.link := lit "Network " ++ nic_type;
                           network_model.address_cidr := cidr;
                           network_model.routes := routes;
                           network_model.dns_nameservers := nameservers |}])
  end.

(** The body of [for nic_type in interfaces_config] in
    [_net_parse_subnets]; the counter [i] of the source is never read. *)
Fixpoint subnets_loop (interfaces_config : list (pystr * value))
    (dns_config additional_routes : value) (nic_types : list pystr)
    (networks : list network_model.Network)
    : result (list network_model.Network) :=
  match nic_types with
  | [] => Ok networks
  | nic_type :: nic_types' =>
      descriptors <- dict_getitem interfaces_config nic_type ;;
      nic <- py_index0 descriptors ;;
      networks <- ip_version_loop dns_config additional_routes nic_type nic
                    [lit "ipv4"; lit "ipv6"] networks ;;
      subnets_loop interfaces_config dns_config additional_routes
        nic_types' networks
  end.

(** [_net_parse_subnets]; a truthy [interfaces] that is not a mapping
    raises in the loop, as in [_net_parse_links]. *)
Definition _net_parse_subnets (md : value)
    : result (list network_model.Network) :=
  let networks := [] in
  interfaces_config <- py_get md (lit "interfaces") VNone ;;
  if negb (truthy interfaces_config) then Ok networks
  else
    dns_config <- py_get md (lit "dns") VNone ;;
    if negb (truthy dns_config) then Ok networks
    else
      additional_routes <- py_get md (lit "routes") (VList []) ;;
      match interfaces_config with
      | VDict d =>
          subnets_loop d dns_config additional_routes (map fst d) networks
      | _ => Raise OtherException
      end.

(** [_net_parse_services] *)
Definition _net_parse_services (md : value)
    : result (list network_model.NameServerService) :=
  let services := [] in
  dns_config <- py_get md (lit "dns") VNone ;;
  if negb (truthy dns_config) then Ok services
  else
    nameservers <- py_get dns_config (lit "nameservers") (VList []) ;;
    Ok (services ++ [{| network_model.addresses := nameservers;
                        network_model.search := VNone |}]).

(** [get_network_details_v2], over the three methods it calls through
    [self]; a bare [return] gives [None]. *)
Definition network_details_v2_of
    (parse_links : value -> result (list network_model.Link))
    (parse_subnets : value -> result (list network_model.Network))
    (parse_services : value -> result (list network_model.NameServerService))
    (md : value) : result (option network_model.NetworkDetailsV2) :=
  interfaces_config <- py_get md (lit "interfaces") VNone ;;
  if negb (truthy interfaces_config) then Ok None
  else
    links <- parse_links md ;;
    if (List.length links =? 0)%nat then Ok None
    else
      networks <- parse_subnets md ;;
      services <- parse_services md ;;
      Ok (Some {| network_model.links := links;
                  network_model.networks := networks;
                  network_model.services := services |}).

Definition get_network_details_v2
    : value -> result (option network_model.NetworkDetailsV2) :=
  network_details_v2_of _net_parse_links _net_parse_subnets
    _net_parse_services.

End Mapper.

(** ** Configuration

    The options of [CONF] the service reads.  [metadata_base_url] may be
    unset; [retry_count_interval] is whatever [time.sleep] is given. *)

Record Config (interval : Type) : Type := {
  metadata_base_url : option pystr;
  retry_count : Z;
  retry_count_interval : interval
}.

(** [bool(s)] for [s] a [str] or [None]. *)
Definition text_truthy (s : option pystr) : bool :=
  match s with
  | Some (_ :: _) => true
  | _ => false
  end.

(** ["%s" % url] *)
Definition percent_s (url : option pystr) : pystr :=
  match url with
  | Some s => s
  | None => lit "None"
  end.

(** ** Effects

    A method that talks to the outside is a function of the state [W] of the
    outside, returning a value or an exception and the new state. *)

Definition M (W A : Type) : Type := W -> result A * W.

Definition ret {W A : Type} (a : A) : M W A := fun w => (Ok a, w).

Definition raise {W A : Type} (e : exn) : M W A := fun w => (Raise e, w).

Definition mbind {W A B : Type} (m : M W A) (k : A -> M W B) : M W B :=
  fun w =>
    match m w with
    | (Ok a, w') => k a w'
    | (Raise e, w') => (Raise e, w')
    end.

(** [try: body  except Exception as ex: handler ex] *)
Definition try_except {W A : Type} (body : M W A) (handler : exn -> M W A)
    : M W A :=
  fun w =>
    match body w with
    | (Ok a, w') => (Ok a, w')
    | (Raise e, w') => handler e w'
    end.

(** A pure computation that may raise, run inside a method. *)
Definition lift {W A : Type} (r : result A) : M W A := fun w => (r, w).

Declare Scope io_scope.
Delimit Scope io_scope with io.
Notation "x <- c ;; k" := (mbind c (fun x => k))
  (at level 61, c at next level, right associativity) : io_scope.

(** ** The admin password *)

Section Password.

Variable interval : Type.

(** The lengths [time.sleep] refuses with an exception (a negative one,
    for instance). *)
Variable sleep_rejects : interval -> bool.

(** [self._get_data(url)]: what the [k]-th request made to the transport
    answers, a body or an exception. *)
Variable transport : nat -> pystr -> result (list byte).

(** [encoding.get_as_string] of [cloudbaseinit.utils.encoding]: the body
    decoded, or [None]. *)
Variable get_as_string : list byte -> result (option pystr).

(** What the caller can observe of a run: the URLs requested and the
    sleeps made, both in order. *)
Record probe : Type := {
  requested : list pystr;
  slept : list interval
}.

Definition _get_data (url : pystr) : M probe (list byte) :=
  fun w =>
    (transport (List.length (requested w)) url,
     {| requested := requested w ++ [url]; slept := slept w |}).

Definition time_sleep (secs : interval) : M probe unit :=
  fun w =>
    if sleep_rejects secs then (Raise OtherException, w)
    else (Ok tt, {| requested := requested w; slept := slept w ++ [secs] |}).

(** [ex.response.status_code]: [None] has no such attribute. *)
Definition status_code (response : option Z) : M probe Z :=
  match response with
  | Some code => ret code
  | None => raise OtherException
  end.

(** [v.strip()]: [None] has no such method. *)
Definition py_strip (v : option pystr) : result pystr :=
  match v with
  | Some s => Ok (strip s)
  | None => Raise OtherException
  end.

(** How the [try] statement of the loop body ends: by reaching the
    statement after it with the current [password], or by [continue]. *)
Inductive flow : Type :=
| Next (password : option pystr)
| Continue.

Local Open Scope io_scope.

(** [for _ in range(n)] of [get_admin_password], with the [password]
    variable as it stands. *)
Fixpoint password_loop (CONF : Config interval) (n : nat)
    (password : option pystr) : M probe (option pystr) :=
  match n with
  | O => ret password
  | S n' =>
      after_try <-
        try_except
          (let metadata_url :=
             percent_s (metadata_base_url CONF) ++ lit "/password" in
           body <- _get_data metadata_url ;;
           text <- lift (get_as_string body) ;;
           stripped <- lift (py_strip text) ;;
           ret (Next (Some stripped)))
          (fun ex =>
             match ex with
             | RequestException response =>
                 _ <- status_code response ;;
                 _ <- time_sleep (retry_count_interval CONF) ;;
                 ret (Next password)
             | OtherException =>
                 _ <- time_sleep (retry_count_interval CONF) ;;
                 ret Continue
             end) ;;
      match after_try with
      | Continue => password_loop CONF n' password
      | Next password =>
          if negb (text_truthy password) then
            password_loop CONF n' password
          else ret password
      end
  end.

(** [get_admin_password]; [range] of a negative count is empty. *)
Definition get_admin_password (CONF : Config interval)
    : M probe (option pystr) :=
  password_loop CONF (Z.to_nat (retry_count CONF)) None.

(** The state before the first request. *)
Definition fresh : probe := {| requested := []; slept := [] |}.

End Password.

(** ** Loading the document *)

Section Load.

Variable interval : Type.

(** The state of the base service and of what is behind it. *)
Variable W : Type.

(** [super().load()] of [base.BaseHTTPMetadataService]. *)
Variable base_load : W -> W.

(** [self._get_cache_data(url, decode=True)] of the base class: the cached
    text, fetched (with the base class's retries) when the cache misses. *)
Variable _get_cache_data : pystr -> M W (option pystr).

(** [json.loads] *)
Variable json_loads : pystr -> result value.

Local Open Scope io_scope.

(** [_get_meta_data]; falling off the end returns [None]. *)
Definition _get_meta_data (CONF : Config interval) : M W value :=
  data <- _get_cache_data
            (percent_s (metadata_base_url CONF) ++ lit "/v1.json") ;;
  if text_truthy data then
    match data with
    | Some text => lift (json_loads text)
    | None => ret VNone
    end
  else ret VNone.

(** [load] *)
Definition load (CONF : Config interval) : M W bool :=
  fun w =>
    let w := base_load w in
    if negb (text_truthy (metadata_base_url CONF)) then ret false w
    else
      try_except
        (_ <- _get_meta_data CONF ;; ret true)
        (fun ex => ret false)
        w.

End Load.

(** ** Concrete collaborators and documents, for running the model *)

(** [str.upper] on ASCII text, where it maps [a-z] to [A-Z] and nothing
    else. *)
Definition ascii_upper (s : pystr) : pystr :=
  map (fun c => if ((97 <=? c) && (c <=? 122))%N then (c - 32)%N else c) s.

Fixpoint split_dots (s : pystr) (field : pystr) : list pystr :=
  match s with
  | [] => [field]
  | c :: s' =>
      if (c =? 46)%N then field :: split_dots s' []
      else split_dots s' (field ++ [c])
  end.

Fixpoint decimal (s : pystr) (acc : N) : option N :=
  match s with
  | [] => Some acc
  | c :: s' =>
      if ((48 <=? c) && (c <=? 57))%N then decimal s' (10 * acc + (c - 48))%N
      else None
  end.

Definition octet (s : pystr) : option N :=
  match s with
  | [] => None
  | _ => match decimal s 0 with
         | Some n => if (n <? 256)%N then Some n else None
         | None => None
         end
  end.

(** The prefix length of a dotted IPv4 netmask. *)
Definition prefix_length (netmask : pystr) : option N :=
  match map octet (split_dots netmask []) with
  | [Some a; Some b; Some c; Some d] =>
      let m := (((a * 256 + b) * 256 + c) * 256 + d)%N in
      let hosts := (4294967296 - m)%N in
      if (hosts =? 2 ^ N.log2 hosts)%N then Some (32 - N.log2 hosts)%N
      else None
  | _ => None
  end.

(** An instance of [ip_netmask_to_cidr] for running the model: without a
    netmask the CIDR is the address; for an IPv4 address with a dotted
    netmask it is the address, a slash and the prefix length of the
    netmask. *)
Definition ipv4_netmask_to_cidr (address netmask : value) : result value :=
  match address, netmask with
  | _, VNone => Ok address
  | VStr a, VStr m =>
      match prefix_length m with
      | Some n => Ok (VStr (a ++ lit "/" ++ str_of_nat (N.to_nat n)))
      | None => Raise OtherException
      end
  | _, _ => Raise OtherException
  end.

(** The document of the service's unit tests, without the fields the mapper
    never reads ([type], [region], [public_keys]). *)
Definition METADATA : list (pystr * value) :=
  [ (lit "id", VStr (lit "3f657fa2-7b72-466e-bad4-f83a31fbe5cd"));
    (lit "fqdn", VStr (lit "server1"));
    (lit "interfaces", VDict
       [ (lit "public", VList
            [ VDict
                [ (lit "ipv4", VDict
                     [ (lit "address", VStr (lit "176.57.186.5"));
                       (lit "netmask", VStr (lit "255.255.255.0"));
                       (lit "gateway", VStr (lit "176.57.186.1")) ]);
                  (lit "mac", VStr (lit "40:9a:4c:8d:96:77"));
                  (lit "type", VStr (lit "public")) ] ]) ]);
    (lit "dns", VDict
       [ (lit "nameservers",
          VList [VStr (lit "8.8.8.8"); VStr (lit "1.1.1.1")]) ]);
    (lit "routes", VList
       [ VDict
           [ (lit "destination", VStr (lit "169.254.169.254/32"));
             (lit "gateway", VStr (lit "176.57.186.1"));
             (lit "metric", VInt 1000) ] ]) ].

(** ** Vocabulary of the statements *)

(** [v.get(k, default)] read as a total function: [default] where [v] has
    no [get]. *)
Definition get_default (v : value) (k : pystr) (default : value) : value :=
  match v with
  | VDict d => match dict_lookup d k with Some x => x | None => default end
  | _ => default
  end.

(** [v.get(k)] *)
Definition getv (v : value) (k : pystr) : value := get_default v k VNone.

(** [md.get(k)] for a document with entries [d]. *)
Definition field (d : list (pystr * value)) (k : pystr) : value :=
  getv (VDict d) k.

(** The entries of a mapping; none for any other value. *)
Definition entries (v : value) : list (pystr * value) :=
  match v with
  | VDict d => d
  | _ => []
  end.

Definition is_dict (v : value) : bool :=
  match v with
  | VDict _ => true
  | _ => false
  end.

Definition is_ok {A : Type} (r : result A) : bool :=
  match r with
  | Ok _ => true
  | Raise _ => false
  end.

Section Expected.

Variable str_upper : pystr -> pystr.
Variable ip_netmask_to_cidr : value -> value -> result value.

(** The link of the [i]-th interface class [t] (counting from 1), whose
    first descriptor has the entries [nic] and the MAC address [mac]. *)
Definition link_of (i : nat) (t : pystr) (nic : list (pystr * value))
    (mac : pystr) : network_model.Link :=
  {| network_model.id := lit "interface" ++ str_of_nat i;
     network_model.name := lit "Network " ++ t;
     network_model.type := network_model.LINK_TYPE_PHYSICAL;
     network_model.enabled := true;
     network_model.mac_address := str_upper mac;
     network_model.mtu := get_default (VDict nic) (lit "mtu") (VInt 1500);
     network_model.bond := VNone;
     network_model.vlan_link := VNone;
     network_model.vlan_id := VNone |}.

(** An interface class maps to a non-empty sequence whose first descriptor
    is a mapping with a string-valued [mac]. *)
Definition well_formed_class (descriptors : value) : bool :=
  match descriptors with
  | VList (VDict nic :: _) =>
      match dict_lookup nic (lit "mac") with
      | Some (VStr _) => true
      | _ => false
      end
  | _ => false
  end.

Definition well_formed_interfaces (ifs : list (pystr * value)) : bool :=
  forallb (fun kv => well_formed_class (snd kv)) ifs.

(** The first-element indexing [interfaces_config[t][0]] is defined. *)
Definition has_first_descriptor (descriptors : value) : bool :=
  match descriptors with
  | VList (_ :: _) => true
  | _ => false
  end.

(** The implicit default route of a subnet block. *)
Definition default_route (ip_version : pystr) (subnet : value)
    : network_model.Route :=
  {| network_model.network_cidr :=
       VStr (if str_eqb ip_version (lit "ipv4") then lit "0.0.0.0/0"
             else lit "::/0");
     network_model.gateway := getv subnet (lit "gateway") |}.

(** One route per entry of the document-level list, in its order. *)
Definition document_routes (rs : list value) : list network_model.Route :=
  map (fun r => {| network_model.network_cidr := getv r (lit "destination");
                   network_model.gateway := getv r (lit "gateway") |}) rs.

(** The network of the subnet block [subnet] of family [ip_version] of the
    class [nic_type]. *)
Definition network_of (dns_config : value) (rs : list value)
    (nic_type ip_version : pystr) (subnet cidr : value)
    : network_model.Network :=
  {| network_model.link := lit "Network " ++ nic_type;
     network_model.address_cidr := cidr;
     network_model.routes :=
       (if str_eqb nic_type (lit "public")
        then [default_route ip_version subnet] else [])
       ++ document_routes rs;
     network_model.dns_nameservers :=
       if str_eqb nic_type (lit "public")
       then get_default dns_config (lit "nameservers") (VList [])
       else VList [] |}.

(** [n] is the network of a present subnet block of the first descriptor
    of some interface class of [ifs]. *)
Definition emitted (ifs : list (pystr * value))
    (dns_config additional_routes : value) (n : network_model.Network)
    : Prop :=
  exists nic_type descriptors nic ip_version subnet rs cidr,
    dict_lookup ifs nic_type = Some descriptors /\
    py_index0 descriptors = Ok nic /\
    In ip_version [lit "ipv4"; lit "ipv6"] /\
    subnet = getv nic ip_version /\
    truthy subnet = true /\
    py_iter additional_routes = Ok rs /\
    ip_netmask_to_cidr (getv subnet (lit "address"))
      (getv subnet (lit "netmask")) = Ok cidr /\
    n = network_of dns_config rs nic_type ip_version subnet cidr.

(** A subnet block the subnet loop gets through: absent or falsy, or a
    mapping whose address and netmask convert to a CIDR. *)
Definition subnet_block_ok (nic : value) (ip_version : pystr) : bool :=
  let subnet := getv nic ip_version in
  negb (truthy subnet)
  || is_dict subnet
     && is_ok (ip_netmask_to_cidr (getv subnet (lit "address"))
                 (getv subnet (lit "netmask"))).

Definition subnet_blocks_ok (descriptors : value) : bool :=
  match descriptors with
  | VList (nic :: _) =>
      subnet_block_ok nic (lit "ipv4") && subnet_block_ok nic (lit "ipv6")
  | _ => false
  end.

(** What [_net_parse_subnets] needs of the document besides well-formed
    interface classes: a [dns] that is a mapping, a [routes] that is absent
    or a sequence of mappings, and subnet blocks as above. *)
Definition subnet_inputs_ok (d ifs : list (pystr * value)) : bool :=
  is_dict (field d (lit "dns"))
  && match get_default (VDict d) (lit "routes") (VList []) with
     | VList rs => forallb is_dict rs
     | _ => false
     end
  && forallb (fun kv => subnet_blocks_ok (snd kv)) ifs.

End Expected.

(** The sleeps the specification expects of a run: one of the fixed length
    between two consecutive attempts. *)
Definition sleeps_between_attempts {interval : Type} (secs : interval)
    (w : probe interval) : Prop :=
  slept w = repeat secs (List.length (requested w) - 1).

(** The URL [get_admin_password] requests. *)
Definition password_url {interval : Type} (CONF : Config interval) : pystr :=
  percent_s (metadata_base_url CONF) ++ lit "/password".

(** The [k]-th request is answered by a body that is empty once decoded and
    stripped. *)
Definition blank_reply (transport : nat -> pystr -> result (list byte))
    (get_as_string : list byte -> result (option pystr)) (url : pystr)
    (k : nat) : Prop :=
  exists body s,
    transport k url = Ok body /\
    get_as_string body = Ok (Some s) /\
    strip s = [].

(** A configuration with a base URL, five attempts and four seconds. *)
Definition GPORTAL_CONF : Config Z :=
  {| metadata_base_url := Some (lit "https://metadata.g-portal.cloud");
     retry_count := 5%Z;
     retry_count_interval := 4%Z |}.

(** [time.sleep] refuses a negative length. *)
Definition negative (secs : Z) : bool := (secs <? 0)%Z.

(** [get_as_string] on an ASCII body: every byte is its code point. *)
Definition ascii_get_as_string (body : list byte) : result (option pystr) :=
  Ok (Some (map Byte.to_N body)).

(** A password server that answers an empty body, then a blank one, then the
    password of the unit tests between spaces. *)
Definition late_password (k : nat) (url : pystr) : result (list byte) :=
  match k with
  | 0 => Ok []
  | 1 => Ok (list_byte_of_string "  ")
  | _ => Ok (list_byte_of_string " MySecretAdministratorPassword123! ")
  end.

(** A password server that cannot be reached: [requests] raises a
    [ConnectionError], which carries no response. *)
Definition unreachable (k : nat) (url : pystr) : result (list byte) :=
  Raise (RequestException None).

(** The test document with [routes] set to [null]. *)
Definition METADATA_NULL_ROUTES : list (pystr * value) :=
  [ (lit "interfaces", field METADATA (lit "interfaces"));
    (lit "dns", field METADATA (lit "dns"));
    (lit "routes", VNone) ].

(** The test document without its [dns] section. *)
Definition METADATA_NO_DNS : list (pystr * value) :=
  [ (lit "interfaces", field METADATA (lit "interfaces"));
    (lit "routes", field METADATA (lit "routes")) ].

(** A document whose [user_data] is the empty string. *)
Definition METADATA_EMPTY_USER_DATA : list (pystr * value) :=
  [ (lit "id", VStr (lit "3f657fa2-7b72-466e-bad4-f83a31fbe5cd"));
    (lit "user_data", VStr []) ].

(** The [user_data] of the unit tests: two lines, the first ended by a line
    feed. *)
Definition USER_DATA : pystr :=
  lit "#ps1" ++ [10%N] ++ lit "New-Item C:/test.txt".

(** The interfaces of a server with a public interface (both families) and a
    private one (jumbo frames, lower-case MAC). *)
Definition TWO_CLASSES_INTERFACES : list (pystr * value) :=
  [ (lit "public", VList
       [ VDict
           [ (lit "ipv4", VDict
                [ (lit "address", VStr (lit "176.57.186.5"));
                  (lit "netmask", VStr (lit "255.255.255.0"));
                  (lit "gateway", VStr (lit "176.57.186.1")) ]);
             (lit "ipv6", VDict
                [ (lit "address", VStr (lit "2a00:1450:4001::5/64"));
                  (lit "gateway", VStr (lit "fe80::1")) ]);
             (lit "mac", VStr (lit "40:9a:4c:8d:96:77")) ] ]);
    (lit "private", VList
       [ VDict
           [ (lit "ipv4", VDict
                [ (lit "address", VStr (lit "10.0.0.5"));
                  (lit "netmask", VStr (lit "255.255.0.0")) ]);
             (lit "mac", VStr (lit "40:9a:4c:8d:96:78"));
             (lit "mtu", VInt 9000) ];
         VDict [ (lit "mac", VStr (lit "40:9a:4c:8d:96:79")) ] ]) ].

Definition TWO_CLASSES : list (pystr * value) :=
  [ (lit "interfaces", VDict TWO_CLASSES_INTERFACES);
    (lit "dns", field METADATA (lit "dns"));
    (lit "routes", field METADATA (lit "routes")) ].

(** The route of the test document, as every network carries it. *)
Definition METADATA_ROUTE : network_model.Route :=
  {| network_model.network_cidr := VStr (lit "169.254.169.254/32");
     network_model.gateway := VStr (lit "176.57.186.1") |}.

(** The networks of [TWO_CLASSES]. *)
Definition TWO_CLASSES_NETWORKS : list network_model.Network :=
  [ {| network_model.link := lit "Network public";
       network_model.address_cidr := VStr (lit "176.57.186.5/24");
       network_model.routes :=
         [ {| network_model.network_cidr := VStr (lit "0.0.0.0/0");
              network_model.gateway := VStr (lit "176.57.186.1") |};
           METADATA_ROUTE ];
       network_model.dns_nameservers :=
         VList [VStr (lit "8.8.8.8"); VStr (lit "1.1.1.1")] |};
    {| network_model.link := lit "Network public";
       network_model.address_cidr := VStr (lit "2a00:1450:4001::5/64");
       network_model.routes :=
         [ {| network_model.network_cidr := VStr (lit "::/0");
              network_model.gateway := VStr (lit "fe80::1") |};
           METADATA_ROUTE ];
       network_model.dns_nameservers :=
         VList [VStr (lit "8.8.8.8"); VStr (lit "1.1.1.1")] |};
    {| network_model.link := lit "Network private";
       network_model.address_cidr := VStr (lit "10.0.0.5/16");
       network_model.routes := [ METADATA_ROUTE ];
       network_model.dns_nameservers := VList [] |} ].

(** A base service that counts its cache lookups and always finds [text]. *)
Definition counting_cache (text : option pystr) (url : pystr)
    : M nat (option pystr) :=
  fun lookups => (Ok text, S lookups).

(** A base service whose fetch fails. *)
Definition failing_cache (url : pystr) : M nat (option pystr) :=
  fun lookups => (Raise (RequestException (Some 500%Z)), S lookups).

(** A parser that accepts the text ["{}"] only. *)
Definition loads_empty_object (text : pystr) : result value :=
  if str_eqb text (lit "{}") then Ok (VDict []) else Raise OtherException.

(** A configuration without a base URL. *)
Definition UNCONFIGURED : Config Z :=
  {| metadata_base_url := None;
     retry_count := 5%Z;
     retry_count_interval := 4%Z |}.

(** What the unit tests expect of the test document. *)
Definition METADATA_LINKS : list network_model.Link :=
  [ {| network_model.id := lit "interface1";
       network_model.name := lit "Network public";
       network_model.type := network_model.LINK_TYPE_PHYSICAL;
       network_model.enabled := true;
       network_model.mac_address := lit "40:9A:4C:8D:96:77";
       network_model.mtu := VInt 1500;
       network_model.bond := VNone;
       network_model.vlan_link := VNone;
       network_model.vlan_id := VNone |} ].

Definition METADATA_NETWORKS : list network_model.Network :=
  [ {| network_model.link := lit "Network public";
       network_model.address_cidr := VStr (lit "176.57.186.5/24");
       network_model.routes :=
         [ {| network_model.network_cidr := VStr (lit "0.0.0.0/0");
              network_model.gateway := VStr (lit "176.57.186.1") |};
           METADATA_ROUTE ];
       network_model.dns_nameservers :=
         VList [VStr (lit "8.8.8.8"); VStr (lit "1.1.1.1")] |} ].

Definition METADATA_SERVICES : list network_model.NameServerService :=
  [ {| network_model.addresses :=
         VList [VStr (lit "8.8.8.8"); VStr (lit "1.1.1.1")];
       network_model.search := VNone |} ].

(** The links of [TWO_CLASSES]. *)
Definition TWO_CLASSES_LINKS : list network_model.Link :=
  [ {| network_model.id := lit "interface1";
       network_model.name := lit "Network public";
       network_model.type := network_model.LINK_TYPE_PHYSICAL;
       network_model.enabled := true;
       network_model.mac_address := lit "40:9A:4C:8D:96:77";
       network_model.mtu := VInt 1500;
       network_model.bond := VNone;
       network_model.vlan_link := VNone;
       network_model.vlan_id := VNone |};
    {| network_model.id := lit "interface2";
       network_model.name := lit "Network private";
       network_model.type := network_model.LINK_TYPE_PHYSICAL;
       network_model.enabled := true;
       network_model.mac_address := lit "40:9A:4C:8D:96:78";
       network_model.mtu := VInt 9000;
       network_model.bond := VNone;
       network_model.vlan_link := VNone;
       network_model.vlan_id := VNone |} ].

(** ** The getters as the service runs them

    [get_instance_id], [get_host_name], [get_user_data] and [get_public_keys]
    call [self._get_meta_data()] once and read one field of what it
    returns. *)

Module GPortalService.

Section Methods.

Variable interval : Type.
Variable W : Type.
Variable _get_cache_data : pystr -> M W (option pystr).
Variable json_loads : pystr -> result value.

Local Open Scope io_scope.

(** [f(self._get_meta_data())] *)
Definition of_meta_data {A : Type} (CONF : Config interval)
    (f : value -> result A) : M W A :=
  md <- _get_meta_data _get_cache_data json_loads CONF ;;
  lift (f md).

Definition get_instance_id (CONF : Config interval) : M W value :=
  of_meta_data CONF get_instance_id.

Definition get_host_name (CONF : Config interval) : M W value :=
  of_meta_data CONF get_host_name.

Definition get_user_data (CONF : Config interval)
    : M W (option (list byte)) :=
  of_meta_data CONF get_user_data.

Definition get_public_keys (CONF : Config interval) : M W value :=
  of_meta_data CONF get_public_keys.

End Methods.

End GPortalService.

(** ** More vocabulary *)

(** The subnet blocks of one interface class that are present: those of the
    first descriptor, ipv4 before ipv6, that are truthy. *)
Definition blocks_of_class (nic_type : pystr) (descriptors : value)
    : list (pystr * pystr * value) :=
  match descriptors with
  | VList (nic :: _) =>
      flat_map
        (fun ip_version =>
           if truthy (getv nic ip_version)
           then [(nic_type, ip_version, getv nic ip_version)] else [])
        [lit "ipv4"; lit "ipv6"]
  | _ => []
  end.

(** The present subnet blocks of the classes [ts] of [ifs], in the order of
    [ts]. *)
Definition present_blocks (ifs : list (pystr * value)) (ts : list pystr)
    : list (pystr * pystr * value) :=
  flat_map (fun t => blocks_of_class t (field ifs t)) ts.

(** A code point [str.encode()] accepts: a Unicode scalar value. *)
Definition encodable (c : N) : bool :=
  ((c <? 55296) || (57343 <? c) && (c <? 1114112))%N.

(** An attempt of [get_admin_password] that ends in a handler which sleeps:
    the request raises with a response attached, or raises anything that is
    not a [RequestException], or its body decodes to [None], on which
    [strip] raises. *)
Definition failed_attempt (transport : nat -> pystr -> result (list byte))
    (get_as_string : list byte -> result (option pystr)) (url : pystr)
    (k : nat) : Prop :=
  (exists code, transport k url = Raise (RequestException (Some code))) \/
  transport k url = Raise OtherException \/
  (exists body, transport k url = Ok body /\ get_as_string body = Ok None).

(** A password server that answers 503, then 404 (which the base class
    turns into an exception of its own), then a body that does not decode. *)
Definition failing_server (k : nat) (url : pystr) : result (list byte) :=
  match k with
  | 0 => Raise (RequestException (Some 503%Z))
  | 1 => Raise OtherException
  | _ => Ok [xff]
  end.

(** [get_as_string] on bytes below 128; [None] on any other. *)
Definition strict_ascii_get_as_string (body : list byte)
    : result (option pystr) :=
  if forallb (fun b => (Byte.to_N b <? 128)%N) body
  then Ok (Some (map Byte.to_N body)) else Ok None.

(** Three attempts, four seconds. *)
Definition THREE_ATTEMPTS : Config Z :=
  {| metadata_base_url := Some (lit "https://metadata.g-portal.cloud");
     retry_count := 3%Z;
     retry_count_interval := 4%Z |}.

(** The [TWO_CLASSES] document without its [dns] section. *)
Definition TWO_CLASSES_NO_DNS : list (pystr * value) :=
  [ (lit "interfaces", VDict TWO_CLASSES_INTERFACES);
    (lit "routes", field METADATA (lit "routes")) ].

(** A document whose [user_data] has a lone surrogate, as [json.loads]
    builds from an escaped one. *)
Definition METADATA_SURROGATE : list (pystr * value) :=
  [ (lit "user_data", VStr (lit "#ps1" ++ [55357%N])) ].

(** [n] is the network of the present block [b]: its CIDR is what
    [ip_netmask_to_cidr] makes of the block's address and netmask, and the
    rest is as [network_of] has it. *)
Definition network_of_block
    (ip_netmask_to_cidr : value -> value -> result value)
    (dns_config additional_routes : value) (b : pystr * pystr * value)
    (n : network_model.Network) : Prop :=
  let '(nic_type, ip_version, subnet) := b in
  exists rs cidr,
    py_iter additional_routes = Ok rs /\
    ip_netmask_to_cidr (getv subnet (lit "address"))
      (getv subnet (lit "netmask")) = Ok cidr /\
    n = network_of dns_config rs nic_type ip_version subnet cidr.

(** A string [lstrip] leaves alone: empty, or starting with no whitespace. *)
Definition starts_clean (s : pystr) : bool :=
  match s with
  | [] => true
  | c :: _ => negb (is_space c)
  end.

(** The test document with the [mac] of its interface left out. *)
Definition METADATA_NO_MAC : list (pystr * value) :=
  [ (lit "interfaces", VDict
       [ (lit "public", VList
            [ VDict
                [ (lit "ipv4", VDict
                     [ (lit "address", VStr (lit "176.57.186.5"));
                       (lit "netmask", VStr (lit "255.255.255.0"));
                       (lit "gateway", VStr (lit "176.57.186.1")) ]) ] ]) ]);
    (lit "dns", field METADATA (lit "dns"));
    (lit "routes", field METADATA (lit "routes")) ].

(** * Properties *)

(** ** Builtins *)

Lemma str_eqb_eq (s t : pystr) : str_eqb s t = true <-> s = t.
Proof.
  revert t; induction s as [|c s IH]; intros [|d t]; simpl;
    try (split; (reflexivity || discriminate)).
  rewrite andb_true_iff, N.eqb_eq, IH.
  split; [intros [-> ->]; reflexivity | intros E; inversion E; auto].
Qed.

Lemma str_eqb_refl (s : pystr) : str_eqb s s = true.
Proof. apply str_eqb_eq; reflexivity. Qed.

Lemma dict_lookup_In (d : list (pystr * value)) (k : pystr) (v : value) :
  dict_lookup d k = Some v -> In (k, v) d.
Proof.
  induction d as [|[k' v'] d IH]; simpl; [discriminate|].
  destruct (str_eqb k' k) eqn:E.
  - apply str_eqb_eq in E; intros [= ->]; left; congruence.
  - intros H; right; auto.
Qed.

Lemma dict_lookup_key (d : list (pystr * value)) (k : pystr) :
  In k (map fst d) -> exists v, dict_lookup d k = Some v.
Proof.
  induction d as [|[k' v'] d IH]; simpl; [tauto|].
  intros [->|H].
  - rewrite str_eqb_refl; eauto.
  - destruct (str_eqb k' k); eauto.
Qed.

Lemma dict_lookup_nth (d : list (pystr * value)) (i : nat) (k : pystr)
    (v : value) :
  NoDup (map fst d) -> nth_error d i = Some (k, v) -> dict_lookup d k = Some v.
Proof.
  revert i; induction d as [|[k' v'] d IH]; intros [|i]; simpl;
    try discriminate.
  - intros _ [= -> ->]; rewrite str_eqb_refl; reflexivity.
  - intros ND H; inversion ND as [|? ? NI ND']; subst.
    destruct (str_eqb k' k) eqn:E.
    + apply str_eqb_eq in E; subst k'.
      exfalso; apply NI. apply nth_error_In in H.
      change k with (fst (k, v)); apply in_map; exact H.
    + eauto.
Qed.

Lemma py_get_dict (d : list (pystr * value)) (k : pystr) (default : value) :
  py_get (VDict d) k default = Ok (get_default (VDict d) k default).
Proof. reflexivity. Qed.

Lemma py_get_ok (v : value) (k : pystr) (default x : value) :
  py_get v k default = Ok x ->
  is_dict v = true /\ x = get_default v k default.
Proof. destruct v; simpl; try discriminate; intros [= <-]; auto. Qed.

Lemma py_get_is_dict (v : value) (k : pystr) (default : value) :
  is_dict v = true -> py_get v k default = Ok (get_default v k default).
Proof. destruct v; simpl; try discriminate; reflexivity. Qed.

Lemma bind_ok {A B : Type} (r : result A) (k : A -> result B) (b : B) :
  bind r k = Ok b -> exists a, r = Ok a /\ k a = Ok b.
Proof. destruct r; simpl; [eauto | discriminate]. Qed.

(** Splits a successful run of a sequence of fallible steps into its steps. *)
Tactic Notation "inv_bind" hyp(H) "as" ident(x) ident(Hx) :=
  apply bind_ok in H; destruct H as (x & Hx & H).

(** ** Link parsing *)

Section LinkParsing.

Variable str_upper : pystr -> pystr.

Lemma well_formed_class_inv (v : value) :
  well_formed_class v = true ->
  exists nic rest mac,
    v = VList (VDict nic :: rest) /\
    dict_lookup nic (lit "mac") = Some (VStr mac).
Proof.
  destruct v as [| | | | |[|[| | | | | |nic] rest]|]; simpl;
    try discriminate.
  destruct (dict_lookup nic (lit "mac")) as [[| | | |mac| |]|] eqn:E;
    try discriminate.
  intros _; exists nic, rest, mac; auto.
Qed.

(** One turn of the loop on a well-formed class. *)
Lemma links_loop_cons (ifs : list (pystr * value)) (t : pystr)
    (ts : list pystr) (i : nat) (acc : list network_model.Link)
    (nic : list (pystr * value)) (rest : list value) (mac : pystr) :
  dict_lookup ifs t = Some (VList (VDict nic :: rest)) ->
  dict_lookup nic (lit "mac") = Some (VStr mac) ->
  links_loop str_upper ifs (t :: ts) i acc
  = links_loop str_upper ifs ts (S i)
      (acc ++ [link_of str_upper (S i) t nic mac]).
Proof.
  intros Hv Hmac. cbn [links_loop]. unfold dict_getitem.
  rewrite Hv. cbn [bind py_index0 py_get]. rewrite Hmac.
  reflexivity.
Qed.

(** On well-formed classes the loop appends one link per key, numbered
    from [i + 1]. *)
Lemma links_loop_ok (ifs : list (pystr * value)) :
  forall (ts : list pystr) (i : nat) (acc : list network_model.Link),
    (forall t, In t ts ->
       exists v, dict_lookup ifs t = Some v /\ well_formed_class v = true) ->
    exists ls,
      links_loop str_upper ifs ts i acc = Ok (acc ++ ls) /\
      List.length ls = List.length ts /\
      forall j t, nth_error ts j = Some t ->
        exists nic rest mac,
          dict_lookup ifs t = Some (VList (VDict nic :: rest)) /\
          dict_lookup nic (lit "mac") = Some (VStr mac) /\
          nth_error ls j = Some (link_of str_upper (i + S j) t nic mac).
Proof.
  induction ts as [|t ts IH]; intros i acc Hwf.
  - exists []. rewrite app_nil_r. repeat split.
    intros [|j] t'; discriminate.
  - destruct (Hwf t (or_introl eq_refl)) as (v & Hv & Hc).
    destruct (well_formed_class_inv _ Hc) as (nic & rest & mac & -> & Hmac).
    destruct (IH (S i) (acc ++ [link_of str_upper (S i) t nic mac]))
      as (ls & Hrun & Hlen & Hnth).
    { intros t' Ht'; apply Hwf; right; exact Ht'. }
    exists (link_of str_upper (S i) t nic mac :: ls).
    rewrite (links_loop_cons _ _ _ _ _ Hv Hmac), Hrun, <- app_assoc.
    repeat split; [simpl; congruence|].
    intros [|j] t'; simpl.
    + intros [= <-]. exists nic, rest, mac.
      rewrite Nat.add_1_r; auto.
    + intros Hj. destruct (Hnth j t' Hj) as (nic' & rest' & mac' & ? & ? & E).
      exists nic', rest', mac'. rewrite Nat.add_succ_r; auto.
Qed.

(** A loop that returns has visited well-formed classes only. *)
Lemma links_loop_inv (ifs : list (pystr * value)) :
  forall (ts : list pystr) (i : nat) (acc r : list network_model.Link),
    links_loop str_upper ifs ts i acc = Ok r ->
    forall t, In t ts ->
      exists v, dict_lookup ifs t = Some v /\ well_formed_class v = true.
Proof.
  induction ts as [|t ts IH]; intros i acc r Hrun t' Ht'; [destruct Ht'|].
  cbn [links_loop] in Hrun.
  inv_bind Hrun as descriptors Hdesc. inv_bind Hrun as nic Hnic.
  inv_bind Hrun as mac Hmac. inv_bind Hrun as mac_upper Hupper.
  inv_bind Hrun as nic_mtu Hmtu.
  destruct Ht' as [<-|Ht']; [|eapply IH; eauto].
  unfold dict_getitem in Hdesc.
  destruct (dict_lookup ifs t) as [v|] eqn:Hv; [|discriminate].
  injection Hdesc as <-. exists v. split; [reflexivity|].
  apply py_get_ok in Hmac. destruct Hmac as [Hd ->].
  destruct v as [| | | |s|[|first rest]|]; simpl in Hnic; try discriminate.
  - destruct s; discriminate || (injection Hnic as <-; discriminate).
  - injection Hnic as <-. destruct first; try discriminate. simpl.
    unfold get_default in Hupper.
    destruct (dict_lookup d (lit "mac")) as [[| | | | | |]|];
      simpl in Hupper; try discriminate; reflexivity.
Qed.

(** The names of the links follow the keys. *)
Lemma links_loop_names (ifs : list (pystr * value)) :
  forall (ts : list pystr) (i : nat) (acc r : list network_model.Link),
    links_loop str_upper ifs ts i acc = Ok r ->
    map network_model.name r
    = map network_model.name acc ++ map (fun t => lit "Network " ++ t) ts.
Proof.
  induction ts as [|t ts IH]; intros i acc r Hrun.
  - injection Hrun as <-. simpl. rewrite app_nil_r. reflexivity.
  - cbn [links_loop] in Hrun.
    inv_bind Hrun as descriptors Hdesc. inv_bind Hrun as nic Hnic.
    inv_bind Hrun as mac Hmac. inv_bind Hrun as mac_upper Hupper.
    inv_bind Hrun as nic_mtu Hmtu.
    apply IH in Hrun. rewrite Hrun, map_app, <- app_assoc. reflexivity.
Qed.

Lemma well_formed_interfaces_keys (ifs : list (pystr * value)) :
  well_formed_interfaces ifs = true ->
  forall t, In t (map fst ifs) ->
    exists v, dict_lookup ifs t = Some v /\ well_formed_class v = true.
Proof.
  intros Hwf t Ht. destruct (dict_lookup_key _ _ Ht) as (v & Hv).
  exists v; split; [exact Hv|].
  apply dict_lookup_In in Hv.
  unfold well_formed_interfaces in Hwf. rewrite forallb_forall in Hwf.
  apply (Hwf _ Hv).
Qed.

End LinkParsing.

(** ** Subnet parsing *)

Section SubnetParsing.

Variable ip_netmask_to_cidr : value -> value -> result value.

Local Abbreviation family_loop := (ip_version_loop ip_netmask_to_cidr).
Local Abbreviation class_loop := (subnets_loop ip_netmask_to_cidr).
Local Abbreviation emitted := (emitted ip_netmask_to_cidr).

(** The route loop copies the entries, or raises on one without [get]. *)
Lemma routes_loop_spec :
  forall (rs : list value) (acc : list network_model.Route),
    routes_loop rs acc
    = if forallb is_dict rs then Ok (acc ++ document_routes rs)
      else Raise OtherException.
Proof.
  induction rs as [|r rs IH]; intros acc; simpl.
  - rewrite app_nil_r; reflexivity.
  - destruct r; simpl; try reflexivity.
    rewrite IH. destruct (forallb is_dict rs); [|reflexivity].
    rewrite <- app_assoc. reflexivity.
Qed.

Section OneInterface.

Variables (ifs : list (pystr * value)) (dns_config additional_routes : value).
Variables (nic_type : pystr) (descriptors nic : value).
Hypothesis Hclass : dict_lookup ifs nic_type = Some descriptors.
Hypothesis Hnic : py_index0 descriptors = Ok nic.

(** The family loop appends networks of this interface only. *)
Lemma ip_version_loop_emitted :
  forall (vs : list pystr) (acc r : list network_model.Network),
    incl vs [lit "ipv4"; lit "ipv6"] ->
    family_loop dns_config additional_routes nic_type nic vs acc = Ok r ->
    exists new,
      r = acc ++ new /\
      Forall (emitted ifs dns_config additional_routes) new.
Proof.
  induction vs as [|v vs IH]; intros acc r Hincl Hrun.
  - injection Hrun as <-. exists []. rewrite app_nil_r. auto.
  - assert (Hvs : incl vs [lit "ipv4"; lit "ipv6"])
      by (intros x Hx; apply Hincl; right; exact Hx).
    cbn [ip_version_loop] in Hrun.
    inv_bind Hrun as subnet Hsubnet.
    apply py_get_ok in Hsubnet. destruct Hsubnet as [Hd ->].
    fold (getv nic v) in Hrun.
    destruct (truthy (getv nic v)) eqn:Ht; cbn [negb] in Hrun;
      [|eapply IH; eauto].
    inv_bind Hrun as public Hpublic.
    destruct public as [routes nameservers].
    inv_bind Hrun as rs Hiter. inv_bind Hrun as routes' Hroutes.
    rewrite routes_loop_spec in Hroutes.
    destruct (forallb is_dict rs) eqn:Hrs; [|discriminate].
    injection Hroutes as <-.
    inv_bind Hrun as address Haddress.
    apply py_get_ok in Haddress. destruct Haddress as [Hsub ->].
    inv_bind Hrun as netmask Hnetmask.
    apply py_get_ok in Hnetmask. destruct Hnetmask as [_ ->].
    inv_bind Hrun as cidr Hcidr.
    destruct (IH _ _ Hvs Hrun) as (new & -> & Hnew).
    eexists (_ :: new). rewrite <- app_assoc. split; [reflexivity|].
    constructor; [|exact Hnew].
    exists nic_type, descriptors, nic, v, (getv nic v), rs, cidr.
    repeat (split; [first [assumption | reflexivity
                           | apply Hincl; left; reflexivity]|]).
    unfold network_of.
    destruct (str_eqb nic_type (lit "public")).
    + inv_bind Hpublic as gw Hgw.
      apply py_get_ok in Hgw. destruct Hgw as [_ ->].
      inv_bind Hpublic as ns Hns.
      apply py_get_ok in Hns. destruct Hns as [_ ->].
      injection Hpublic as <- <-. reflexivity.
    + injection Hpublic as <- <-. reflexivity.
Qed.

End OneInterface.

(** The class loop appends emitted networks only. *)
Lemma subnets_loop_emitted (ifs : list (pystr * value))
    (dns_config additional_routes : value) :
  forall (ts : list pystr) (acc r : list network_model.Network),
    class_loop ifs dns_config additional_routes ts acc = Ok r ->
    exists new,
      r = acc ++ new /\
      Forall (emitted ifs dns_config additional_routes) new.
Proof.
  induction ts as [|t ts IH]; intros acc r Hrun.
  - injection Hrun as <-. exists []. rewrite app_nil_r. auto.
  - cbn [subnets_loop] in Hrun.
    inv_bind Hrun as descriptors Hdesc. inv_bind Hrun as nic Hnic.
    inv_bind Hrun as networks Hinner.
    unfold dict_getitem in Hdesc.
    destruct (dict_lookup ifs t) as [v|] eqn:Hv; [|discriminate].
    injection Hdesc as <-.
    destruct (@ip_version_loop_emitted ifs dns_config additional_routes t v
                nic Hv Hnic _ _ _ (incl_refl _) Hinner) as (new1 & -> & H1).
    destruct (IH _ _ Hrun) as (new2 & -> & H2).
    exists (new1 ++ new2). rewrite app_assoc. split; [reflexivity|].
    apply Forall_app; auto.
Qed.

(** The family loop gets through a descriptor whose blocks are in order. *)
Lemma ip_version_loop_ok (dns_config : value) (rs : list value)
    (nic_type : pystr) (nic : value) :
  is_dict nic = true ->
  is_dict dns_config = true ->
  forallb is_dict rs = true ->
  forall (vs : list pystr) (acc : list network_model.Network),
    (forall v, In v vs -> subnet_block_ok ip_netmask_to_cidr nic v = true) ->
    exists r, family_loop dns_config (VList rs) nic_type nic vs acc = Ok r.
Proof.
  intros Hnic Hdns Hrs.
  induction vs as [|v vs IH]; intros acc Hblocks; [eexists; reflexivity|].
  cbn [ip_version_loop].
  rewrite (py_get_is_dict _ _ _ Hnic). cbn [bind]. fold (getv nic v).
  assert (Hvs : forall v', In v' vs ->
                  subnet_block_ok ip_netmask_to_cidr nic v' = true)
    by (intros v' Hv'; apply Hblocks; right; exact Hv').
  pose proof (Hblocks v (or_introl eq_refl)) as Hv.
  unfold subnet_block_ok in Hv.
  destruct (truthy (getv nic v)); cbn [negb orb] in *; [|apply IH; exact Hvs].
  apply andb_true_iff in Hv. destruct Hv as [Hsub Hcidr].
  destruct (ip_netmask_to_cidr _ _) as [cidr|] eqn:E; [|discriminate].
  rewrite !(py_get_is_dict _ _ _ Hsub), ?(py_get_is_dict _ _ _ Hdns).
  destruct (str_eqb nic_type (lit "public")); cbn [bind py_iter];
    rewrite routes_loop_spec, Hrs; cbn [bind];
    fold (getv (getv nic v) (lit "address"));
    fold (getv (getv nic v) (lit "netmask"));
    rewrite E; cbn [bind]; apply IH; exact Hvs.
Qed.

(** A family loop that visits a family has called [nic.get]. *)
Lemma ip_version_loop_dict (dns_config additional_routes : value)
    (nic_type : pystr) (nic : value) (v : pystr) (vs : list pystr)
    (acc r : list network_model.Network) :
  family_loop dns_config additional_routes nic_type nic (v :: vs) acc
  = Ok r ->
  is_dict nic = true.
Proof.
  cbn [ip_version_loop]. intros Hrun.
  inv_bind Hrun as subnet Hsubnet. apply py_get_ok in Hsubnet. tauto.
Qed.

(** The class loop gets through classes that are in order. *)
Lemma subnets_loop_ok (ifs : list (pystr * value)) (dns_config : value)
    (rs : list value) :
  is_dict dns_config = true ->
  forallb is_dict rs = true ->
  forall (ts : list pystr) (acc : list network_model.Network),
    (forall t, In t ts ->
       exists v, dict_lookup ifs t = Some v /\
                 well_formed_class v = true /\
                 subnet_blocks_ok ip_netmask_to_cidr v = true) ->
    exists r, class_loop ifs dns_config (VList rs) ts acc = Ok r.
Proof.
  intros Hdns Hrs.
  induction ts as [|t ts IH]; intros acc Hok; [eexists; reflexivity|].
  destruct (Hok t (or_introl eq_refl)) as (v & Hv & Hwf & Hblocks).
  destruct (well_formed_class_inv _ Hwf) as (nic & rest & mac & -> & _).
  cbn [subnets_loop]. unfold dict_getitem. rewrite Hv.
  cbn [bind py_index0].
  cbn [subnet_blocks_ok] in Hblocks. apply andb_true_iff in Hblocks.
  destruct Hblocks as [H4 H6].
  destruct (@ip_version_loop_ok dns_config rs t (VDict nic) eq_refl Hdns Hrs
              [lit "ipv4"; lit "ipv6"] acc) as (r1 & ->).
  { intros v [<-|[<-|[]]]; assumption. }
  cbn [bind]. apply IH. intros t' Ht'; apply Hok; right; exact Ht'.
Qed.

(** A class loop that returns has found a first descriptor in every class
    it visited. *)
Lemma subnets_loop_inv (ifs : list (pystr * value))
    (dns_config additional_routes : value) :
  forall (ts : list pystr) (acc r : list network_model.Network),
    class_loop ifs dns_config additional_routes ts acc = Ok r ->
    forall t, In t ts ->
      exists v, dict_lookup ifs t = Some v /\
                has_first_descriptor v = true.
Proof.
  induction ts as [|t ts IH]; intros acc r Hrun t' Ht'; [destruct Ht'|].
  cbn [subnets_loop] in Hrun.
  inv_bind Hrun as descriptors Hdesc. inv_bind Hrun as nic Hnic.
  inv_bind Hrun as networks Hinner.
  destruct Ht' as [<-|Ht']; [|eapply IH; eauto].
  unfold dict_getitem in Hdesc.
  destruct (dict_lookup ifs t) as [v|]; [|discriminate].
  injection Hdesc as <-. exists v. split; [reflexivity|].
  apply ip_version_loop_dict in Hinner.
  destruct v as [| | | |s|[|first rest]|]; simpl in Hnic; try discriminate.
  - destruct s; [discriminate|]. injection Hnic as <-. discriminate.
  - reflexivity.
Qed.

(** Every network [_net_parse_subnets] returns is an emitted one. *)
Lemma parse_subnets_emitted (d : list (pystr * value))
    (nets : list network_model.Network) :
  _net_parse_subnets ip_netmask_to_cidr (VDict d) = Ok nets ->
  Forall (emitted (entries (field d (lit "interfaces")))
            (field d (lit "dns"))
            (get_default (VDict d) (lit "routes") (VList []))) nets.
Proof.
  unfold _net_parse_subnets. rewrite !py_get_dict.
  cbn [bind]. fold (getv (VDict d) (lit "interfaces")).
  fold (getv (VDict d) (lit "dns")). fold (field d (lit "interfaces")).
  fold (field d (lit "dns")).
  destruct (truthy (field d (lit "interfaces"))); cbn [negb];
    [|intros [= <-]; constructor].
  destruct (truthy (field d (lit "dns"))); cbn [negb];
    [|intros [= <-]; constructor].
  destruct (field d (lit "interfaces")); try discriminate.
  intros Hrun. apply subnets_loop_emitted in Hrun.
  destruct Hrun as (new & -> & Hnew). exact Hnew.
Qed.

End SubnetParsing.

(** ** The topology mapper on a document *)

Section MapperProperties.

Variable str_upper : pystr -> pystr.
Variable ip_netmask_to_cidr : value -> value -> result value.

Local Abbreviation parse_links := (_net_parse_links str_upper).
Local Abbreviation parse_subnets := (_net_parse_subnets ip_netmask_to_cidr).

Lemma parse_links_unfold (d ifs : list (pystr * value)) :
  field d (lit "interfaces") = VDict ifs ->
  parse_links (VDict d)
  = match ifs with
    | [] => Ok []
    | _ => links_loop str_upper ifs (map fst ifs) 0 []
    end.
Proof.
  intros Hifs. unfold _net_parse_links. rewrite py_get_dict. cbn [bind].
  fold (getv (VDict d) (lit "interfaces")). fold (field d (lit "interfaces")).
  rewrite Hifs. destruct ifs; reflexivity.
Qed.

Lemma parse_subnets_unfold (d ifs : list (pystr * value)) :
  field d (lit "interfaces") = VDict ifs ->
  truthy (field d (lit "dns")) = true ->
  parse_subnets (VDict d)
  = match ifs with
    | [] => Ok []
    | _ => subnets_loop ip_netmask_to_cidr ifs (field d (lit "dns"))
             (get_default (VDict d) (lit "routes") (VList []))
             (map fst ifs) []
    end.
Proof.
  intros Hifs Hdns. unfold _net_parse_subnets. rewrite !py_get_dict.
  cbn [bind]. fold (getv (VDict d) (lit "interfaces")).
  fold (getv (VDict d) (lit "dns")). fold (field d (lit "interfaces")).
  fold (field d (lit "dns")). rewrite Hifs, Hdns.
  destruct ifs; reflexivity.
Qed.

(** C2.  On a document whose [interfaces] is a mapping of well-formed
    classes, link parsing returns one link per class key, in document
    order: the link of the [i]-th class (from 0) has the id
    ["interface<i+1>"], the name ["Network <class>"], the MAC address of the
    first descriptor of the class uppercased, its [mtu] field or 1500 when
    it has none, the physical type, and is enabled. *)
Theorem parse_links_one_link_per_class (d ifs : list (pystr * value)) :
  field d (lit "interfaces") = VDict ifs ->
  NoDup (map fst ifs) ->
  well_formed_interfaces ifs = true ->
  exists links,
    parse_links (VDict d) = Ok links /\
    List.length links = List.length ifs /\
    forall i t descriptors,
      nth_error ifs i = Some (t, descriptors) ->
      exists nic rest mac,
        descriptors = VList (VDict nic :: rest) /\
        dict_lookup nic (lit "mac") = Some (VStr mac) /\
        nth_error links i
        = Some {| network_model.id := lit "interface" ++ str_of_nat (S i);
                  network_model.name := lit "Network " ++ t;
                  network_model.type := network_model.LINK_TYPE_PHYSICAL;
                  network_model.enabled := true;
                  network_model.mac_address := str_upper mac;
                  network_model.mtu :=
                    match dict_lookup nic (lit "mtu") with
                    | Some m => m
                    | None => VInt 1500
                    end;
                  network_model.bond := VNone;
                  network_model.vlan_link := VNone;
                  network_model.vlan_id := VNone |}.
Proof.
  intros Hifs Hdup Hwf.
  destruct (links_loop_ok str_upper ifs (map fst ifs) 0 []
              (well_formed_interfaces_keys _ Hwf)) as (ls & Hrun & Hlen & Hnth).
  exists ls. rewrite (parse_links_unfold _ Hifs).
  rewrite length_map in Hlen. split; [|split; [exact Hlen|]].
  - destruct ifs; [|exact Hrun]. destruct ls; [reflexivity|discriminate].
  - intros i t descriptors Hi.
    assert (Hkey : nth_error (map fst ifs) i = Some t)
      by (rewrite nth_error_map, Hi; reflexivity).
    destruct (Hnth i t Hkey) as (nic & rest & mac & Hv & Hmac & Hlink).
    rewrite (dict_lookup_nth _ _ Hdup Hi) in Hv. injection Hv as ->.
    exists nic, rest, mac. split; [reflexivity|].
    split; [exact Hmac|exact Hlink].
Qed.

Lemma parse_subnets_short_circuit (d : list (pystr * value)) :
  truthy (field d (lit "interfaces")) = false \/
  truthy (field d (lit "dns")) = false ->
  parse_subnets (VDict d) = Ok [].
Proof.
  intros H. unfold _net_parse_subnets. rewrite !py_get_dict. cbn [bind].
  fold (getv (VDict d) (lit "interfaces")). fold (getv (VDict d) (lit "dns")).
  fold (field d (lit "interfaces")). fold (field d (lit "dns")).
  destruct (truthy (field d (lit "interfaces"))); [|reflexivity].
  destruct H as [H|H]; [discriminate|]. rewrite H. reflexivity.
Qed.

(** C3.  When [dns] is absent or empty, subnet parsing returns the empty
    list whatever [interfaces] holds, and likewise when [interfaces] is
    absent or empty whatever [dns] holds; neither raises. *)
Theorem parse_subnets_needs_interfaces_and_dns (d : list (pystr * value)) :
  (truthy (field d (lit "dns")) = false ->
   parse_subnets (VDict d) = Ok [])
  /\ (truthy (field d (lit "interfaces")) = false ->
      parse_subnets (VDict d) = Ok []).
Proof.
  split; intros H; apply parse_subnets_short_circuit; auto.
Qed.

(** Link parsing never returns an empty list on a truthy [interfaces]:
    the guard [len(links) == 0] of [get_network_details_v2] is reached only
    when [_net_parse_links] is overridden. *)
Lemma parse_links_nonempty (md : value) (links : list network_model.Link) :
  truthy (getv md (lit "interfaces")) = true ->
  parse_links md = Ok links ->
  links <> [].
Proof.
  intros Ht Hrun. unfold _net_parse_links in Hrun.
  inv_bind Hrun as interfaces_config Hget.
  apply py_get_ok in Hget. destruct Hget as [_ ->].
  fold (getv md (lit "interfaces")) in Hrun. rewrite Ht in Hrun.
  cbn [negb] in Hrun.
  destruct (getv md (lit "interfaces")) as [| | | | | |ifs]; try discriminate.
  destruct ifs as [|[t v] ifs]; [discriminate|].
  apply links_loop_names in Hrun. intros ->. discriminate.
Qed.

(** The networks of a subnet parse are named after links of the link parse
    of the same document, when both return. *)
Lemma parsed_networks_name_parsed_links (d : list (pystr * value))
    (links : list network_model.Link) (nets : list network_model.Network) :
  parse_links (VDict d) = Ok links ->
  parse_subnets (VDict d) = Ok nets ->
  Forall (fun n => exists l,
            In l links /\ network_model.name l = network_model.link n) nets.
Proof.
  intros Hlinks Hnets.
  pose proof (parse_subnets_emitted _ _ Hnets) as Hem.
  eapply Forall_impl; [|exact Hem]. intros n Hn.
  destruct Hn as (nic_type & descriptors & nic & ip_version & subnet & rs
                  & cidr & Hclass & _ & _ & _ & _ & _ & _ & ->).
  destruct (field d (lit "interfaces")) as [| | | | | |ifs] eqn:E;
    try discriminate Hclass.
  rewrite (parse_links_unfold _ E) in Hlinks.
  destruct ifs as [|kv ifs]; [discriminate Hclass|].
  apply links_loop_names in Hlinks. cbn [map app] in Hlinks.
  cbn [entries] in Hclass. apply dict_lookup_In in Hclass.
  assert (Hname : In (lit "Network " ++ nic_type)
                    (map network_model.name links)).
  { rewrite Hlinks.
    change (In ((fun t => lit "Network " ++ t) nic_type)
              (map (fun t => lit "Network " ++ t) (map fst (kv :: ifs)))).
    apply in_map. change nic_type with (fst (nic_type, descriptors)).
    apply in_map. exact Hclass. }
  apply in_map_iff in Hname. destruct Hname as (l & Hl & Hin).
  exists l. split; [exact Hin|exact Hl].
Qed.

(** C9, as amended.  On one document on which link parsing and subnet
    parsing both return, the [link] of every network subnet parsing returns
    is the [name] of a link that link parsing returns; and every model
    [get_network_details_v2] returns has no network naming a link it does
    not hold. *)
Theorem networks_reference_parsed_links (d : list (pystr * value)) :
  (forall links nets,
     parse_links (VDict d) = Ok links ->
     parse_subnets (VDict d) = Ok nets ->
     Forall (fun n => exists l,
               In l links /\ network_model.name l = network_model.link n)
       nets)
  /\ (forall m,
        get_network_details_v2 str_upper ip_netmask_to_cidr (VDict d)
        = Ok (Some m) ->
        Forall (fun n => exists l,
                  In l (network_model.links m) /\
                  network_model.name l = network_model.link n)
          (network_model.networks m)).
Proof.
  split; [exact (parsed_networks_name_parsed_links d)|].
  intros m Hm. unfold get_network_details_v2, network_details_v2_of in Hm.
  inv_bind Hm as interfaces_config Hget.
  destruct (negb (truthy interfaces_config)); [discriminate|].
  inv_bind Hm as links Hlinks.
  destruct (List.length links =? 0)%nat; [discriminate|].
  inv_bind Hm as nets Hnets. inv_bind Hm as svcs Hsvcs.
  injection Hm as <-. cbn [network_model.links network_model.networks].
  exact (parsed_networks_name_parsed_links d Hlinks Hnets).
Qed.

(** C10, as amended.  On a document whose [interfaces] is a mapping, link
    parsing returns exactly when every class is well formed (a non-empty
    sequence whose first descriptor is a mapping with a string [mac]).
    Subnet parsing returns on well-formed classes when also [dns] is a
    mapping, [routes] is absent or a sequence of mappings, and every
    [ipv4] / [ipv6] block of a first descriptor is absent, falsy, or a
    mapping whose address and netmask convert to a CIDR.  A subnet parse
    that gets past a truthy [dns] and returns has found a first descriptor
    in every class. *)
Theorem parsers_defined_on_well_formed_documents
    (d ifs : list (pystr * value)) :
  field d (lit "interfaces") = VDict ifs ->
  NoDup (map fst ifs) ->
  ((exists links, parse_links (VDict d) = Ok links) <->
   well_formed_interfaces ifs = true)
  /\ (well_formed_interfaces ifs = true ->
      subnet_inputs_ok ip_netmask_to_cidr d ifs = true ->
      exists nets, parse_subnets (VDict d) = Ok nets)
  /\ (truthy (field d (lit "dns")) = true ->
      (exists nets, parse_subnets (VDict d) = Ok nets) ->
      forallb (fun kv => has_first_descriptor (snd kv)) ifs = true).
Proof.
  intros Hifs Hdup. split; [split|split].
  - intros (links & Hrun). rewrite (parse_links_unfold _ Hifs) in Hrun.
    destruct ifs as [|kv ifs]; [reflexivity|].
    apply forallb_forall. intros [t v] Hin.
    destruct (In_nth_error _ _ Hin) as (i & Hi).
    destruct (links_loop_inv _ _ _ _ _ Hrun t) as (v' & Hv' & Hwf).
    { change t with (fst (t, v)). apply in_map. exact Hin. }
    rewrite (dict_lookup_nth _ _ Hdup Hi) in Hv'. injection Hv' as <-.
    exact Hwf.
  - intros Hwf.
    destruct (links_loop_ok str_upper ifs (map fst ifs) 0 []
                (well_formed_interfaces_keys _ Hwf)) as (ls & Hrun & Hlen & _).
    rewrite (parse_links_unfold _ Hifs).
    destruct ifs; eauto.
  - intros Hwf Hok. unfold subnet_inputs_ok in Hok.
    apply andb_true_iff in Hok. destruct Hok as [Hok Hblocks].
    apply andb_true_iff in Hok. destruct Hok as [Hdns Hroutes].
    destruct (truthy (field d (lit "dns"))) eqn:Ht.
    + rewrite (parse_subnets_unfold _ Hifs Ht).
      destruct ifs as [|kv ifs]; [eauto|].
      destruct (get_default (VDict d) (lit "routes") (VList []))
        as [| | | | |rs|]; try discriminate.
      apply subnets_loop_ok; [exact Hdns|exact Hroutes|].
      intros t Ht'.
      destruct (well_formed_interfaces_keys _ Hwf _ Ht') as (v & Hv & Hc).
      exists v. repeat split; [exact Hv|exact Hc|].
      rewrite forallb_forall in Hblocks.
      apply (Hblocks (t, v)). apply dict_lookup_In. exact Hv.
    + exists []. apply parse_subnets_short_circuit. auto.
  - intros Ht (nets & Hrun). rewrite (parse_subnets_unfold _ Hifs Ht) in Hrun.
    destruct ifs as [|kv ifs]; [reflexivity|].
    apply forallb_forall. intros [t v] Hin.
    destruct (In_nth_error _ _ Hin) as (i & Hi).
    destruct (subnets_loop_inv _ _ _ _ _ _ Hrun t) as (v' & Hv' & Hfirst).
    { change t with (fst (t, v)). apply in_map. exact Hin. }
    rewrite (dict_lookup_nth _ _ Hdup Hi) in Hv'. injection Hv' as <-.
    exact Hfirst.
Qed.

(** C4, as amended.  [get_network_details_v2] returns [None] when
    [interfaces] is absent or empty; when the three derivations return, it
    returns the model made of their results, empty networks or services
    included; and whatever link derivation it is composed with, it returns
    [None] when that derivation yields no link. *)
Theorem network_details_v2_composition (d : list (pystr * value)) :
  (truthy (field d (lit "interfaces")) = false ->
   get_network_details_v2 str_upper ip_netmask_to_cidr (VDict d) = Ok None)
  /\ (forall links nets svcs,
        truthy (field d (lit "interfaces")) = true ->
        parse_links (VDict d) = Ok links ->
        parse_subnets (VDict d) = Ok nets ->
        _net_parse_services (VDict d) = Ok svcs ->
        get_network_details_v2 str_upper ip_netmask_to_cidr (VDict d)
        = Ok (Some {| network_model.links := links;
                      network_model.networks := nets;
                      network_model.services := svcs |}))
  /\ (forall derive_links,
        truthy (field d (lit "interfaces")) = true ->
        derive_links (VDict d) = Ok [] ->
        network_details_v2_of derive_links parse_subnets
          _net_parse_services (VDict d) = Ok None).
Proof.
  unfold get_network_details_v2, network_details_v2_of.
  rewrite !py_get_dict. cbn [bind].
  fold (getv (VDict d) (lit "interfaces")).
  fold (field d (lit "interfaces")).
  split; [|split].
  - intros ->. reflexivity.
  - intros links nets svcs Ht Hlinks Hnets Hsvcs.
    pose proof (parse_links_nonempty (VDict d) Ht Hlinks) as Hne.
    rewrite Ht, Hlinks, Hnets, Hsvcs. cbn [negb bind].
    destruct links; [contradiction|reflexivity].
  - intros derive_links Ht Hlinks. rewrite Ht, Hlinks. reflexivity.
Qed.

End MapperProperties.

(** ** User data *)

Lemma utf8_encode_cp_defined (c : N) :
  match utf8_encode_cp c with Some _ => true | None => false end
  = encodable c.
Proof.
  unfold utf8_encode_cp, encodable.
  repeat match goal with
         | |- context [(?a <? ?b)%N] => destruct (N.ltb_spec a b)
         | |- context [(?a <=? ?b)%N] => destruct (N.leb_spec a b)
         end; cbn; try reflexivity; lia.
Qed.

Lemma utf8_encode_defined (s : pystr) :
  match utf8_encode s with Some _ => true | None => false end
  = forallb encodable s.
Proof.
  induction s as [|c s IH]; [reflexivity|]. cbn [utf8_encode forallb].
  rewrite <- utf8_encode_cp_defined, <- IH.
  destruct (utf8_encode_cp c), (utf8_encode s); reflexivity.
Qed.

(** C8, as amended.  [get_user_data] returns [None] when [user_data] is
    absent and when it is the empty string; for a non-empty string of
    Unicode scalar values it returns the bytes of its UTF-8 encoding; for a
    string with a lone surrogate, which has no UTF-8 encoding, it raises. *)
Theorem get_user_data_utf8 (d : list (pystr * value)) :
  (dict_lookup d (lit "user_data") = None ->
   get_user_data (VDict d) = Ok None)
  /\ (dict_lookup d (lit "user_data") = Some (VStr []) ->
      get_user_data (VDict d) = Ok None)
  /\ (forall s,
        dict_lookup d (lit "user_data") = Some (VStr s) ->
        s <> [] ->
        forallb encodable s = true ->
        exists encoded,
          utf8_encode s = Some encoded /\
          get_user_data (VDict d) = Ok (Some encoded))
  /\ (forall s,
        dict_lookup d (lit "user_data") = Some (VStr s) ->
        forallb encodable s = false ->
        utf8_encode s = None /\
        get_user_data (VDict d) = Raise OtherException).
Proof.
  unfold get_user_data. cbn [py_get bind].
  split; [|split; [|split]].
  - intros ->. reflexivity.
  - intros ->. reflexivity.
  - intros s -> Hs Henc. rewrite <- utf8_encode_defined in Henc.
    destruct (utf8_encode s) as [encoded|]; [|discriminate].
    exists encoded. split; [reflexivity|].
    destruct s as [|c s]; [contradiction|reflexivity].
  - intros s -> Henc. pose proof (utf8_encode_defined s) as Hdef.
    rewrite Henc in Hdef.
    destruct s as [|c s]; [discriminate|]. cbn [truthy].
    destruct (utf8_encode (c :: s)) as [encoded|]; [discriminate|].
    split; reflexivity.
Qed.

(** ** The admin password *)

Section PasswordProperties.

Variable interval : Type.
Variable sleep_rejects : interval -> bool.
Variable transport : nat -> pystr -> result (list byte).
Variable get_as_string : list byte -> result (option pystr).
Variable CONF : Config interval.

Local Abbreviation loop :=
  (password_loop sleep_rejects transport get_as_string CONF).
Local Abbreviation url := (password_url CONF).
Local Abbreviation blank := (blank_reply transport get_as_string url).

(** A blank reply: the loop goes on, having requested once more and not
    slept. *)
Lemma password_loop_blank (n : nat) (password : option pystr)
    (w : probe interval) :
  blank (List.length (requested w)) ->
  loop (S n) password w
  = loop n (Some []) {| requested := requested w ++ [url];
                        slept := slept w |}.
Proof.
  intros (body & s & Hbody & Htext & Hblank).
  cbn [password_loop]. unfold mbind at 1, try_except, mbind at 1, _get_data.
  fold url. rewrite Hbody. unfold mbind, lift, ret. rewrite Htext.
  cbn [py_strip]. rewrite Hblank. reflexivity.
Qed.

(** A reply with text: the loop ends with the text, stripped. *)
Lemma password_loop_text (n : nat) (password : option pystr)
    (w : probe interval) (body : list byte) (s : pystr) :
  transport (List.length (requested w)) url = Ok body ->
  get_as_string body = Ok (Some s) ->
  strip s <> [] ->
  loop (S n) password w
  = (Ok (Some (strip s)),
     {| requested := requested w ++ [url]; slept := slept w |}).
Proof.
  intros Hbody Htext Hfull.
  cbn [password_loop]. unfold mbind at 1, try_except, mbind at 1, _get_data.
  fold url. rewrite Hbody. unfold mbind, lift, ret. rewrite Htext.
  cbn [py_strip]. destruct (strip s); [contradiction|reflexivity].
Qed.

(** [m] blank replies in a row. *)
Lemma password_loop_blanks :
  forall (m n : nat) (password : option pystr) (w : probe interval),
    (forall k, k < m -> blank (List.length (requested w) + k)) ->
    loop (m + n) password w
    = loop n (match m with 0 => password | S _ => Some [] end)
        {| requested := requested w ++ repeat url m; slept := slept w |}.
Proof.
  induction m as [|m IH]; intros n password w Hblank.
  - cbn [repeat Nat.add]. rewrite app_nil_r. destruct w; reflexivity.
  - cbn [Nat.add]. rewrite password_loop_blank.
    + rewrite IH.
      * cbn [requested slept repeat]. rewrite <- app_assoc.
        destruct m; reflexivity.
      * intros k Hk. cbn [requested]. rewrite length_app. cbn [List.length].
        replace (List.length (requested w) + 1 + k)
          with (List.length (requested w) + S k) by lia.
        apply Hblank. lia.
    + rewrite <- (Nat.add_0_r (List.length (requested w))).
      apply Hblank. lia.
Qed.

(** C5, as amended.  When the first [N] requests are answered by blank
    bodies, [N] being at most the retry count: if the next request is
    within the count and answered by a body with text, [get_admin_password]
    returns that text stripped, after [N + 1] requests in all; if [N] is
    the retry count, it returns the empty string ([None] for a count of
    zero) after [N] requests.  In both cases it has not slept: it sleeps
    after a failed request only. *)
Theorem get_admin_password_after_blank_replies (N : nat) :
  N <= Z.to_nat (retry_count CONF) ->
  (forall k, k < N -> blank k) ->
  (forall body s,
     N < Z.to_nat (retry_count CONF) ->
     transport N url = Ok body ->
     get_as_string body = Ok (Some s) ->
     strip s <> [] ->
     get_admin_password sleep_rejects transport get_as_string CONF
       (fresh interval)
     = (Ok (Some (strip s)),
        {| requested := repeat url (S N); slept := [] |}))
  /\ (N = Z.to_nat (retry_count CONF) ->
      get_admin_password sleep_rejects transport get_as_string CONF
        (fresh interval)
      = (Ok (match N with 0 => None | S _ => Some [] end),
         {| requested := repeat url N; slept := [] |})).
Proof.
  intros Hle Hblank. unfold get_admin_password. split.
  - intros body s Hlt Hbody Htext Hfull.
    replace (Z.to_nat (retry_count CONF))
      with (N + S (Z.to_nat (retry_count CONF) - S N)) by lia.
    rewrite password_loop_blanks by exact Hblank.
    rewrite (@password_loop_text _ _ _ body s);
      [|cbn [requested fresh app]; rewrite repeat_length; exact Hbody
       |exact Htext|exact Hfull].
    cbn [requested slept fresh app]. f_equal. f_equal.
    change [url] with (repeat url 1). rewrite <- repeat_app.
    f_equal. lia.
  - intros <-. rewrite <- (Nat.add_0_r N) at 1.
    rewrite password_loop_blanks by exact Hblank.
    reflexivity.
Qed.

(** Requests that fail with a response: the loop sleeps after each and
    ends on [None]. *)
Lemma password_loop_failures :
  forall (n : nat) (w : probe interval),
    sleep_rejects (retry_count_interval CONF) = false ->
    (forall k, k < n -> exists code,
       transport (List.length (requested w) + k) url
       = Raise (RequestException (Some code))) ->
    loop n None w
    = (Ok None,
       {| requested := requested w ++ repeat url n;
          slept := slept w ++ repeat (retry_count_interval CONF) n |}).
Proof.
  induction n as [|n IH]; intros w Hsleep Hfail.
  - cbn [password_loop repeat]. rewrite !app_nil_r. destruct w; reflexivity.
  - destruct (Hfail 0 ltac:(lia)) as (code & Hcode).
    rewrite Nat.add_0_r in Hcode.
    cbn [password_loop]. unfold mbind at 1, try_except, mbind at 1, _get_data.
    fold url. rewrite Hcode. cbn [status_code].
    unfold mbind, ret, time_sleep. rewrite Hsleep.
    cbn [text_truthy negb requested slept]. rewrite IH.
    + cbn [requested slept repeat]. rewrite <- !app_assoc. reflexivity.
    + exact Hsleep.
    + intros k Hk. cbn [requested]. rewrite length_app. cbn [List.length].
      replace (List.length (requested w) + 1 + k)
        with (List.length (requested w) + S k) by lia.
      apply Hfail. lia.
Qed.

(** C6.  A request that fails without a response, as a connection error
    does: reading [ex.response.status_code] in the handler raises, and
    [get_admin_password] lets that exception through after one request,
    with no sleep and no retry. *)
Theorem get_admin_password_raises_without_response :
  (0 < retry_count CONF)%Z ->
  transport 0 url = Raise (RequestException None) ->
  get_admin_password sleep_rejects transport get_as_string CONF
    (fresh interval)
  = (Raise OtherException, {| requested := [url]; slept := [] |}).
Proof.
  intros Hcount Hfail. unfold get_admin_password.
  destruct (Z.to_nat (retry_count CONF)) as [|n] eqn:E; [lia|].
  cbn [password_loop]. unfold mbind at 1, try_except, mbind at 1, _get_data.
  cbn [fresh requested List.length]. fold url. rewrite Hfail.
  reflexivity.
Qed.

End PasswordProperties.

(** ** Loading the document *)

Section LoadProperties.

Variable interval : Type.
Variable W : Type.
Variable base_load : W -> W.
Variable _get_cache_data : pystr -> M W (option pystr).
Variable json_loads : pystr -> result value.
Variable CONF : Config interval.

Local Abbreviation fetch :=
  (_get_meta_data _get_cache_data json_loads CONF).

(** C7, as amended.  [load] always returns a boolean.  With no base URL
    configured it returns [False] in the state the base class's [load]
    left, nothing having been fetched.  With one, it looks the document up
    once: it returns [False] when the fetch raises, [True] when the fetch
    returns a non-empty text that [json.loads] parses and [False] when
    [json.loads] raises on it, and [True] when the fetch returns an empty
    text or [None], no document having been parsed. *)
Theorem load_never_raises (w : W) :
  (exists loaded w',
     load base_load _get_cache_data json_loads CONF w = (Ok loaded, w'))
  /\ (text_truthy (metadata_base_url CONF) = false ->
      load base_load _get_cache_data json_loads CONF w
      = (Ok false, base_load w))
  /\ (text_truthy (metadata_base_url CONF) = true ->
      (forall ex w1,
         _get_cache_data
           (percent_s (metadata_base_url CONF) ++ lit "/v1.json")
           (base_load w) = (Raise ex, w1) ->
         load base_load _get_cache_data json_loads CONF w = (Ok false, w1))
      /\ (forall text w1,
            _get_cache_data
              (percent_s (metadata_base_url CONF) ++ lit "/v1.json")
              (base_load w) = (Ok (Some text), w1) ->
            text <> [] ->
            load base_load _get_cache_data json_loads CONF w
            = (Ok (is_ok (json_loads text)), w1))
      /\ (forall text w1,
            _get_cache_data
              (percent_s (metadata_base_url CONF) ++ lit "/v1.json")
              (base_load w) = (Ok text, w1) ->
            text_truthy text = false ->
            load base_load _get_cache_data json_loads CONF w
            = (Ok true, w1))).
Proof.
  unfold load, try_except, _get_meta_data, mbind, lift, ret.
  destruct (text_truthy (metadata_base_url CONF)) eqn:Hurl; cbn [negb].
  - split; [|split; [discriminate|intros _; split; [|split]]].
    + destruct (_get_cache_data _ (base_load w)) as [[[[|c text]|]|ex] w1];
        cbn [text_truthy]; try (do 2 eexists; reflexivity).
      destruct (json_loads (c :: text)); do 2 eexists; reflexivity.
    + intros ex w1 ->. reflexivity.
    + intros text w1 -> Htext. destruct text as [|c text]; [contradiction|].
      cbn [text_truthy]. destruct (json_loads (c :: text)); reflexivity.
    + intros text w1 -> ->. reflexivity.
  - split; [do 2 eexists; reflexivity|].
    split; [reflexivity|discriminate].
Qed.

End LoadProperties.

(** * The model on concrete documents and transports *)

(** [test_network_details_v2] of the unit tests. *)
Example test_network_details_v2 :
  get_network_details_v2 ascii_upper ipv4_netmask_to_cidr (VDict METADATA)
  = Ok (Some {| network_model.links := METADATA_LINKS;
                network_model.networks := METADATA_NETWORKS;
                network_model.services := METADATA_SERVICES |}).
Proof. vm_compute. reflexivity. Qed.

Example test_links :
  _net_parse_links ascii_upper (VDict METADATA) = Ok METADATA_LINKS.
Proof. vm_compute. reflexivity. Qed.

Example test_subnets :
  _net_parse_subnets ipv4_netmask_to_cidr (VDict METADATA)
  = Ok METADATA_NETWORKS.
Proof. vm_compute. reflexivity. Qed.

Example test_services :
  _net_parse_services (VDict METADATA) = Ok METADATA_SERVICES.
Proof. vm_compute. reflexivity. Qed.

(** [test_empty_get_user_data] of the unit tests. *)
Example test_empty_get_user_data :
  get_user_data (VDict METADATA) = Ok None.
Proof. reflexivity. Qed.

(** The IPv4 route of the document is attached to the IPv6 network too. *)
Example two_classes_links :
  _net_parse_links ascii_upper (VDict TWO_CLASSES) = Ok TWO_CLASSES_LINKS.
Proof. vm_compute. reflexivity. Qed.

Example two_classes_subnets :
  _net_parse_subnets ipv4_netmask_to_cidr (VDict TWO_CLASSES)
  = Ok TWO_CLASSES_NETWORKS.
Proof. vm_compute. reflexivity. Qed.

(** Requests that fail with a response are retried, with a sleep after each,
    and end on [None]. *)
Example server_errors_degrade_to_none :
  get_admin_password negative
    (fun _ _ => Raise (RequestException (Some 503%Z)))
    ascii_get_as_string GPORTAL_CONF (fresh Z)
  = (Ok None,
     {| requested := repeat (password_url GPORTAL_CONF) 5;
        slept := repeat 4%Z 5 |}).
Proof. vm_compute. reflexivity. Qed.

(** [load] on a base service that finds the text of an empty object, and on
    one whose fetch fails. *)
Example load_fetches_once :
  load (fun lookups => lookups) (counting_cache (Some (lit "{}")))
    loads_empty_object GPORTAL_CONF 0
  = (Ok true, 1).
Proof. vm_compute. reflexivity. Qed.

Example load_catches_failure :
  load (fun lookups => lookups) failing_cache loads_empty_object
    GPORTAL_CONF 0
  = (Ok false, 1).
Proof. vm_compute. reflexivity. Qed.

Example load_catches_parse_error :
  load (fun lookups => lookups) (counting_cache (Some (lit "{")))
    loads_empty_object GPORTAL_CONF 0
  = (Ok false, 1).
Proof. vm_compute. reflexivity. Qed.

(** Link parsing raises on an empty descriptor list and on a descriptor
    without [mac]; subnet parsing raises on the first and not on the second,
    as it never reads [mac]. *)
Example links_raise_on_empty_descriptor_list :
  _net_parse_links ascii_upper
    (VDict [(lit "interfaces", VDict [(lit "public", VList [])])])
  = Raise OtherException.
Proof. vm_compute. reflexivity. Qed.

Example links_raise_on_missing_mac :
  _net_parse_links ascii_upper
    (VDict [(lit "interfaces", VDict [(lit "public", VList [VDict []])])])
  = Raise OtherException.
Proof. vm_compute. reflexivity. Qed.

Example subnets_raise_on_empty_descriptor_list :
  _net_parse_subnets ipv4_netmask_to_cidr
    (VDict [(lit "interfaces", VDict [(lit "public", VList [])]);
            (lit "dns", field METADATA (lit "dns"))])
  = Raise OtherException.
Proof. vm_compute. reflexivity. Qed.

Example subnets_return_on_missing_mac :
  _net_parse_subnets ipv4_netmask_to_cidr
    (VDict [(lit "interfaces", VDict [(lit "public", VList [VDict []])]);
            (lit "dns", field METADATA (lit "dns"))])
  = Ok [].
Proof. vm_compute. reflexivity. Qed.

(** Distinctness of the keys of a concrete mapping. *)
Ltac distinct_keys :=
  repeat (constructor; [vm_compute; intuition discriminate|]); constructor.

(** * The theorems at concrete inputs *)

Lemma parse_links_one_link_per_class_witness :
  exists links,
    _net_parse_links ascii_upper (VDict TWO_CLASSES) = Ok links /\
    List.length links = 2.
Proof.
  destruct (@parse_links_one_link_per_class ascii_upper TWO_CLASSES
              TWO_CLASSES_INTERFACES eq_refl ltac:(distinct_keys) eq_refl)
    as (links & Hrun & Hlen & _).
  exists links. split; [exact Hrun|exact Hlen].
Defined.

Lemma parse_subnets_needs_interfaces_and_dns_witness :
  truthy (field METADATA_NO_DNS (lit "interfaces")) = true /\
  _net_parse_subnets ipv4_netmask_to_cidr (VDict METADATA_NO_DNS) = Ok [].
Proof.
  split; [reflexivity|].
  exact (proj1 (parse_subnets_needs_interfaces_and_dns ipv4_netmask_to_cidr
                  METADATA_NO_DNS) eq_refl).
Defined.

Lemma network_details_v2_composition_witness :
  get_network_details_v2 ascii_upper ipv4_netmask_to_cidr
    (VDict METADATA_EMPTY_USER_DATA) = Ok None
  /\ get_network_details_v2 ascii_upper ipv4_netmask_to_cidr (VDict METADATA)
     = Ok (Some {| network_model.links := METADATA_LINKS;
                   network_model.networks := METADATA_NETWORKS;
                   network_model.services := METADATA_SERVICES |})
  /\ network_details_v2_of (fun _ => Ok [])
       (_net_parse_subnets ipv4_netmask_to_cidr) _net_parse_services
       (VDict METADATA) = Ok None.
Proof.
  split; [|split].
  - exact (proj1 (network_details_v2_composition ascii_upper
                    ipv4_netmask_to_cidr METADATA_EMPTY_USER_DATA) eq_refl).
  - exact (proj1 (proj2 (network_details_v2_composition ascii_upper
                           ipv4_netmask_to_cidr METADATA))
             _ _ _ eq_refl test_links test_subnets test_services).
  - exact (proj2 (proj2 (network_details_v2_composition ascii_upper
                           ipv4_netmask_to_cidr METADATA))
             (fun _ => Ok []) eq_refl eq_refl).
Defined.

(** C4, as stated, fails on the test document with [routes] set to
    [null]: [interfaces] is there and link parsing yields a link, yet
    [get_network_details_v2] returns no model, subnet parsing raising. *)
Lemma network_details_raise_on_null_routes :
  truthy (field METADATA_NULL_ROUTES (lit "interfaces")) = true /\
  _net_parse_links ascii_upper (VDict METADATA_NULL_ROUTES)
  = Ok METADATA_LINKS /\
  List.length METADATA_LINKS = 1 /\
  get_network_details_v2 ascii_upper ipv4_netmask_to_cidr
    (VDict METADATA_NULL_ROUTES) = Raise OtherException.
Proof.
  repeat split; vm_compute; reflexivity.
Qed.

(** C5, as stated, fails on a server that answers blank bodies before the
    password: the three attempts are made without any sleep between them. *)
Lemma blank_attempts_without_sleep :
  let run :=
    get_admin_password negative late_password ascii_get_as_string
      GPORTAL_CONF (fresh Z) in
  fst run = Ok (Some (lit "MySecretAdministratorPassword123!")) /\
  List.length (requested (snd run)) = 3 /\
  slept (snd run) = [] /\
  ~ sleeps_between_attempts 4%Z (snd run).
Proof.
  cbv zeta. repeat split; try (vm_compute; reflexivity).
  unfold sleeps_between_attempts. vm_compute. discriminate.
Qed.

Lemma get_admin_password_after_blank_replies_witness :
  get_admin_password negative late_password ascii_get_as_string GPORTAL_CONF
    (fresh Z)
  = (Ok (Some (lit "MySecretAdministratorPassword123!")),
     {| requested := repeat (password_url GPORTAL_CONF) 3; slept := [] |}).
Proof.
  assert (Hle : 2 <= Z.to_nat (retry_count GPORTAL_CONF))
    by (vm_compute; lia).
  assert (Hblank : forall k, k < 2 ->
            blank_reply late_password ascii_get_as_string
              (password_url GPORTAL_CONF) k).
  { intros [|[|k]] Hk; [| |lia];
      do 2 eexists; (split; [reflexivity|split; reflexivity]). }
  refine (proj1 (@get_admin_password_after_blank_replies Z negative
                   late_password ascii_get_as_string GPORTAL_CONF 2 Hle Hblank)
            _ _ _ eq_refl eq_refl _).
  - vm_compute; lia.
  - vm_compute; discriminate.
Defined.

Lemma get_admin_password_raises_without_response_witness :
  get_admin_password negative unreachable ascii_get_as_string GPORTAL_CONF
    (fresh Z)
  = (Raise OtherException,
     {| requested := [password_url GPORTAL_CONF]; slept := [] |}).
Proof.
  apply get_admin_password_raises_without_response; reflexivity.
Defined.

Lemma load_never_raises_witness :
  load (fun lookups => lookups) (counting_cache (Some (lit "{}")))
    loads_empty_object UNCONFIGURED 0 = (Ok false, 0)
  /\ load (fun lookups => lookups) (counting_cache (Some (lit "{}")))
       loads_empty_object GPORTAL_CONF 0 = (Ok true, 1)
  /\ load (fun lookups => lookups) (counting_cache (Some (lit "{")))
       loads_empty_object GPORTAL_CONF 0 = (Ok false, 1)
  /\ load (fun lookups => lookups) failing_cache loads_empty_object
       GPORTAL_CONF 0 = (Ok false, 1).
Proof.
  split; [|split; [|split]].
  - exact (proj1 (proj2 (@load_never_raises Z nat (fun lookups => lookups)
                           (counting_cache (Some (lit "{}")))
                           loads_empty_object UNCONFIGURED 0)) eq_refl).
  - refine (proj1 (proj2 (proj2 (proj2
              (@load_never_raises Z nat (fun lookups => lookups)
                 (counting_cache (Some (lit "{}"))) loads_empty_object
                 GPORTAL_CONF 0)) eq_refl)) (lit "{}") 1 eq_refl _).
    vm_compute. discriminate.
  - refine (proj1 (proj2 (proj2 (proj2
              (@load_never_raises Z nat (fun lookups => lookups)
                 (counting_cache (Some (lit "{"))) loads_empty_object
                 GPORTAL_CONF 0)) eq_refl)) (lit "{") 1 eq_refl _).
    vm_compute. discriminate.
  - exact (proj1 (proj2 (proj2
             (@load_never_raises Z nat (fun lookups => lookups)
                failing_cache loads_empty_object GPORTAL_CONF 0)) eq_refl)
             (RequestException (Some 500%Z)) 1 eq_refl).
Defined.

(** C7, as stated, fails on an endpoint that answers an empty body: [load]
    returns [True] although the fetch it made has obtained no document,
    [_get_meta_data] returning [None]. *)
Lemma load_true_without_document :
  load (fun lookups => lookups) (counting_cache (Some []))
    loads_empty_object GPORTAL_CONF 0 = (Ok true, 1)
  /\ _get_meta_data (counting_cache (Some [])) loads_empty_object
       GPORTAL_CONF 0 = (Ok VNone, 1).
Proof.
  split; vm_compute; reflexivity.
Qed.

(** C8, as stated, fails on a document whose [user_data] is the empty
    string: its UTF-8 encoding is the empty byte string, and [get_user_data]
    returns [None].  It has no answer on a string with a lone surrogate,
    which has no UTF-8 encoding: there [get_user_data] raises. *)
Lemma get_user_data_without_encoding :
  dict_lookup METADATA_EMPTY_USER_DATA (lit "user_data") = Some (VStr []) /\
  utf8_encode [] = Some [] /\
  get_user_data (VDict METADATA_EMPTY_USER_DATA) = Ok None /\
  get_user_data (VDict METADATA_EMPTY_USER_DATA) <> Ok (Some []) /\
  utf8_encode (lit "#ps1" ++ [55357%N]) = None /\
  get_user_data (VDict METADATA_SURROGATE) = Raise OtherException.
Proof.
  repeat split; try (vm_compute; reflexivity). vm_compute. discriminate.
Qed.

(** [test_existing_get_user_data] of the unit tests, and a lone
    surrogate. *)
Lemma get_user_data_utf8_witness :
  get_user_data (VDict ((lit "user_data", VStr USER_DATA) :: METADATA))
  = Ok (Some (list_byte_of_string "#ps1" ++ [x0a]
              ++ list_byte_of_string "New-Item C:/test.txt"))
  /\ get_user_data (VDict METADATA_SURROGATE) = Raise OtherException.
Proof.
  split.
  - destruct (proj1 (proj2 (proj2 (get_user_data_utf8
                ((lit "user_data", VStr USER_DATA) :: METADATA))))
                USER_DATA eq_refl) as (encoded & Henc & Hrun).
    + vm_compute. discriminate.
    + reflexivity.
    + rewrite Hrun. vm_compute in Henc. injection Henc as <-.
      reflexivity.
  - exact (proj2 (proj2 (proj2 (proj2 (get_user_data_utf8
             METADATA_SURROGATE))) (lit "#ps1" ++ [55357%N])
             eq_refl eq_refl)).
Defined.

Lemma networks_reference_parsed_links_witness :
  Forall (fun n => exists l,
            In l TWO_CLASSES_LINKS /\
            network_model.name l = network_model.link n)
    TWO_CLASSES_NETWORKS.
Proof.
  exact (proj1 (@networks_reference_parsed_links ascii_upper
                  ipv4_netmask_to_cidr TWO_CLASSES)
           _ _ two_classes_links two_classes_subnets).
Defined.

(** C9, as stated, fails on the test document without the [mac] of its
    interface: subnet parsing returns a network of the link
    ["Network public"], and link parsing, raising, returns no link at
    all. *)
Lemma network_without_link_on_missing_mac :
  truthy (field METADATA_NO_MAC (lit "interfaces")) = true /\
  truthy (field METADATA_NO_MAC (lit "dns")) = true /\
  _net_parse_subnets ipv4_netmask_to_cidr (VDict METADATA_NO_MAC)
  = Ok METADATA_NETWORKS /\
  map network_model.link METADATA_NETWORKS = [lit "Network public"] /\
  _net_parse_links ascii_upper (VDict METADATA_NO_MAC)
  = Raise OtherException.
Proof.
  repeat split; vm_compute; reflexivity.
Qed.

(** C10, as stated, fails on the test document with [routes] set to [null]:
    its one class is well formed and link parsing returns, but iterating
    over [None] raises in subnet parsing. *)
Lemma parse_subnets_raises_on_null_routes :
  field METADATA_NULL_ROUTES (lit "interfaces")
  = field METADATA (lit "interfaces") /\
  well_formed_interfaces (entries (field METADATA (lit "interfaces"))) = true /\
  _net_parse_links ascii_upper (VDict METADATA_NULL_ROUTES)
  = Ok METADATA_LINKS /\
  _net_parse_subnets ipv4_netmask_to_cidr (VDict METADATA_NULL_ROUTES)
  = Raise OtherException.
Proof.
  repeat split; vm_compute; reflexivity.
Qed.

Lemma parsers_defined_on_well_formed_documents_witness :
  (exists links, _net_parse_links ascii_upper (VDict TWO_CLASSES) = Ok links)
  /\ (exists nets,
        _net_parse_subnets ipv4_netmask_to_cidr (VDict TWO_CLASSES) = Ok nets).
Proof.
  destruct (@parsers_defined_on_well_formed_documents ascii_upper
              ipv4_netmask_to_cidr TWO_CLASSES TWO_CLASSES_INTERFACES
              eq_refl ltac:(distinct_keys)) as (Hlinks & Hnets & _).
  split; [apply Hlinks; reflexivity|apply Hnets; reflexivity].
Defined.

(** * Further properties of the service *)

(** ** What subnet parsing returns, block by block *)

Section SubnetsBlockByBlock.

Variable ip_netmask_to_cidr : value -> value -> result value.

Local Abbreviation block_network :=
  (network_of_block ip_netmask_to_cidr).

(** The family loop appends the networks of the present blocks of the
    families it visits, in their order. *)
Lemma ip_version_loop_blocks (dns_config additional_routes : value)
    (nic_type : pystr) (nic : value) :
  forall (vs : list pystr) (acc r : list network_model.Network),
    ip_version_loop ip_netmask_to_cidr dns_config additional_routes nic_type
      nic vs acc = Ok r ->
    exists new,
      r = acc ++ new /\
      Forall2 (block_network dns_config additional_routes)
        (flat_map
           (fun v => if truthy (getv nic v)
                     then [(nic_type, v, getv nic v)] else []) vs)
        new.
Proof.
  induction vs as [|v vs IH]; intros acc r Hrun.
  - injection Hrun as <-. exists []. rewrite app_nil_r.
    split; [reflexivity|constructor].
  - cbn [ip_version_loop] in Hrun.
    inv_bind Hrun as subnet Hsubnet.
    apply py_get_ok in Hsubnet. destruct Hsubnet as [Hd ->].
    fold (getv nic v) in Hrun. cbn [flat_map].
    destruct (truthy (getv nic v)) eqn:Ht; cbn [negb] in Hrun;
      [|apply IH; exact Hrun].
    inv_bind Hrun as public Hpublic.
    destruct public as [routes nameservers].
    inv_bind Hrun as rs Hiter. inv_bind Hrun as routes' Hroutes.
    rewrite routes_loop_spec in Hroutes.
    destruct (forallb is_dict rs); [|discriminate].
    injection Hroutes as <-.
    inv_bind Hrun as address Haddress.
    apply py_get_ok in Haddress. destruct Haddress as [_ ->].
    inv_bind Hrun as netmask Hnetmask.
    apply py_get_ok in Hnetmask. destruct Hnetmask as [_ ->].
    inv_bind Hrun as cidr Hcidr.
    destruct (IH _ _ Hrun) as (new & -> & Hnew).
    eexists (_ :: new). rewrite <- app_assoc. split; [reflexivity|].
    cbn [app]. constructor; [|exact Hnew].
    exists rs, cidr. split; [exact Hiter|]. split; [exact Hcidr|].
    unfold network_of.
    destruct (str_eqb nic_type (lit "public")).
    + inv_bind Hpublic as gw Hgw.
      apply py_get_ok in Hgw. destruct Hgw as [_ ->].
      inv_bind Hpublic as ns Hns.
      apply py_get_ok in Hns. destruct Hns as [_ ->].
      injection Hpublic as <- <-. reflexivity.
    + injection Hpublic as <- <-. reflexivity.
Qed.

(** The class loop appends the networks of the present blocks of the classes
    it visits, in their order. *)
Lemma subnets_loop_blocks (ifs : list (pystr * value))
    (dns_config additional_routes : value) :
  forall (ts : list pystr) (acc r : list network_model.Network),
    subnets_loop ip_netmask_to_cidr ifs dns_config additional_routes ts acc
    = Ok r ->
    exists new,
      r = acc ++ new /\
      Forall2 (block_network dns_config additional_routes)
        (present_blocks ifs ts) new.
Proof.
  induction ts as [|t ts IH]; intros acc r Hrun.
  - injection Hrun as <-. exists []. rewrite app_nil_r.
    split; [reflexivity|constructor].
  - cbn [subnets_loop] in Hrun.
    inv_bind Hrun as descriptors Hdesc. inv_bind Hrun as nic Hnic.
    inv_bind Hrun as networks Hinner.
    unfold dict_getitem in Hdesc.
    destruct (dict_lookup ifs t) as [v|] eqn:Hv; [|discriminate].
    injection Hdesc as <-.
    pose proof Hinner as Hdict. apply ip_version_loop_dict in Hdict.
    apply ip_version_loop_blocks in Hinner.
    destruct Hinner as (new1 & -> & H1).
    destruct (IH _ _ Hrun) as (new2 & -> & H2).
    exists (new1 ++ new2). rewrite app_assoc. split; [reflexivity|].
    unfold present_blocks. cbn [flat_map]. apply Forall2_app; [|exact H2].
    unfold field, getv, get_default. rewrite Hv.
    destruct v as [| | | |s|[|first rest]|]; simpl in Hnic; try discriminate.
    + destruct s; [discriminate|]. injection Hnic as <-. discriminate.
    + injection Hnic as <-. exact H1.
Qed.

(** X1.  When [dns] is truthy and subnet parsing returns, it returns exactly
    one network for each present ipv4 / ipv6 block of the first descriptor
    of each class, in class order and ipv4 first, whose CIDR is what
    [ip_netmask_to_cidr] makes of the block's address and netmask. *)
Theorem parse_subnets_one_network_per_block (d ifs : list (pystr * value))
    (nets : list network_model.Network) :
  field d (lit "interfaces") = VDict ifs ->
  truthy (field d (lit "dns")) = true ->
  _net_parse_subnets ip_netmask_to_cidr (VDict d) = Ok nets ->
  Forall2
    (block_network (field d (lit "dns"))
       (get_default (VDict d) (lit "routes") (VList [])))
    (present_blocks ifs (map fst ifs)) nets
  /\ List.length nets = List.length (present_blocks ifs (map fst ifs)).
Proof.
  intros Hifs Hdns Hrun.
  rewrite (parse_subnets_unfold _ _ Hifs Hdns) in Hrun.
  assert (H : Forall2
                (block_network (field d (lit "dns"))
                   (get_default (VDict d) (lit "routes") (VList [])))
                (present_blocks ifs (map fst ifs)) nets).
  { destruct ifs as [|kv ifs].
    - injection Hrun as <-. constructor.
    - apply subnets_loop_blocks in Hrun.
      destruct Hrun as (new & -> & Hnew). exact Hnew. }
  split; [exact H|]. symmetry. eapply Forall2_length. exact H.
Qed.

(** C1.  When [interfaces] and [dns] are truthy and subnet parsing returns,
    its networks are, one for one and in order, those of the present subnet
    blocks of the first descriptors of the classes.  The network of a block
    has the CIDR of that block's address and netmask and carries one route
    per entry of the document-level [routes], in document order and copied
    verbatim, whatever the family of the block.  For the class ["public"]
    these follow the default route of the block's own family (["0.0.0.0/0"]
    for its ipv4 block, ["::/0"] for its ipv6 block) through that block's
    [gateway], and the nameservers are those of [dns]; for any other class
    there is no default route and no nameserver. *)
Theorem parse_subnets_routes_and_nameservers (d : list (pystr * value))
    (nets : list network_model.Network) :
  truthy (field d (lit "interfaces")) = true ->
  truthy (field d (lit "dns")) = true ->
  _net_parse_subnets ip_netmask_to_cidr (VDict d) = Ok nets ->
  Forall2
    (fun (block : pystr * pystr * value) n =>
       let '(nic_type, ip_version, subnet) := block in
       exists rs,
         py_iter (get_default (VDict d) (lit "routes") (VList [])) = Ok rs /\
         network_model.link n = lit "Network " ++ nic_type /\
         ip_netmask_to_cidr (getv subnet (lit "address"))
           (getv subnet (lit "netmask"))
         = Ok (network_model.address_cidr n) /\
         let document_level :=
           map (fun r =>
                  {| network_model.network_cidr := getv r (lit "destination");
                     network_model.gateway := getv r (lit "gateway") |}) rs in
         if str_eqb nic_type (lit "public") then
           network_model.routes n
           = {| network_model.network_cidr :=
                  VStr (if str_eqb ip_version (lit "ipv4")
                        then lit "0.0.0.0/0" else lit "::/0");
                network_model.gateway := getv subnet (lit "gateway") |}
             :: document_level /\
           network_model.dns_nameservers n
           = get_default (field d (lit "dns")) (lit "nameservers") (VList [])
         else
           network_model.routes n = document_level /\
           network_model.dns_nameservers n = VList [])
    (present_blocks (entries (field d (lit "interfaces")))
       (map fst (entries (field d (lit "interfaces")))))
    nets.
Proof.
  intros Hifs Hdns Hrun.
  destruct (field d (lit "interfaces")) as [| | | | | |ifs] eqn:E;
    try (unfold _net_parse_subnets in Hrun; rewrite !py_get_dict in Hrun;
         cbn [bind] in Hrun;
         fold (getv (VDict d) (lit "interfaces")) in Hrun;
         fold (getv (VDict d) (lit "dns")) in Hrun;
         fold (field d (lit "interfaces")) in Hrun;
         fold (field d (lit "dns")) in Hrun;
         rewrite E, Hdns in Hrun; rewrite Hifs in Hrun; discriminate).
  cbn [entries]. rewrite (parse_subnets_unfold _ _ E Hdns) in Hrun.
  destruct ifs as [|kv ifs]; [discriminate|].
  apply subnets_loop_blocks in Hrun. destruct Hrun as (new & -> & Hnew).
  cbn [app]. eapply Forall2_impl; [|exact Hnew].
  intros [[nic_type ip_version] subnet] n (rs & cidr & Hrs & Hcidr & ->).
  exists rs. split; [exact Hrs|]. split; [reflexivity|].
  split; [exact Hcidr|].
  unfold network_of, default_route, document_routes.
  cbn [network_model.routes network_model.dns_nameservers].
  destruct (str_eqb nic_type (lit "public")); split; reflexivity.
Qed.

End SubnetsBlockByBlock.

(** ** How the derivations fit together *)

Lemma lit_inj (s t : string) : lit s = lit t -> s = t.
Proof.
  unfold lit. intros H.
  rewrite <- (string_of_list_ascii_of_string s),
          <- (string_of_list_ascii_of_string t).
  f_equal. revert H.
  generalize (list_ascii_of_string s) (list_ascii_of_string t).
  induction l as [|a l IH]; intros [|b l']; simpl; try discriminate; auto.
  intros [= Hab Hl]. f_equal; [|auto].
  rewrite <- (ascii_N_embedding a), <- (ascii_N_embedding b), Hab.
  reflexivity.
Qed.

Lemma str_of_nat_inj (i j : nat) : str_of_nat i = str_of_nat j -> i = j.
Proof.
  unfold str_of_nat. intros H. apply lit_inj in H.
  apply DecimalNat.Unsigned.to_uint_inj.
  assert (E : Some (Nat.to_uint i) = Some (Nat.to_uint j))
    by (rewrite <- !NilEmpty.usu, H; reflexivity).
  injection E as E. exact E.
Qed.

Lemma NoDup_map_injective {A B : Type} (f : A -> B) (l : list A) :
  (forall x y, f x = f y -> x = y) -> NoDup l -> NoDup (map f l).
Proof.
  intros Hinj. induction 1 as [|x l Hx Hl IH]; simpl; constructor; auto.
  intros Hin. apply in_map_iff in Hin. destruct Hin as (y & Hy & Hin).
  apply Hinj in Hy. subst y. contradiction.
Qed.

Section MapperComposition.

Variable str_upper : pystr -> pystr.
Variable ip_netmask_to_cidr : value -> value -> result value.

Local Abbreviation parse_links := (_net_parse_links str_upper).
Local Abbreviation parse_subnets := (_net_parse_subnets ip_netmask_to_cidr).
Local Abbreviation details :=
  (get_network_details_v2 str_upper ip_netmask_to_cidr).

(** The ids of the links follow the counter. *)
Lemma links_loop_ids (ifs : list (pystr * value)) :
  forall (ts : list pystr) (i : nat) (acc r : list network_model.Link),
    links_loop str_upper ifs ts i acc = Ok r ->
    map network_model.id r
    = map network_model.id acc
      ++ map (fun k => lit "interface" ++ str_of_nat k)
           (seq (S i) (List.length ts)).
Proof.
  induction ts as [|t ts IH]; intros i acc r Hrun.
  - injection Hrun as <-. simpl. rewrite app_nil_r. reflexivity.
  - cbn [links_loop] in Hrun.
    inv_bind Hrun as descriptors Hdesc. inv_bind Hrun as nic Hnic.
    inv_bind Hrun as mac Hmac. inv_bind Hrun as mac_upper Hupper.
    inv_bind Hrun as nic_mtu Hmtu.
    apply IH in Hrun. rewrite Hrun, map_app, <- app_assoc. reflexivity.
Qed.

Lemma parse_links_mapping (md : value) (links : list network_model.Link) :
  parse_links md = Ok links ->
  links = [] \/
  exists ifs,
    getv md (lit "interfaces") = VDict ifs /\
    links_loop str_upper ifs (map fst ifs) 0 [] = Ok links.
Proof.
  unfold _net_parse_links. intros Hrun.
  inv_bind Hrun as interfaces_config Hget.
  apply py_get_ok in Hget. destruct Hget as [_ ->].
  fold (getv md (lit "interfaces")) in Hrun.
  destruct (truthy (getv md (lit "interfaces"))); cbn [negb] in Hrun.
  - destruct (getv md (lit "interfaces")) as [| | | | | |ifs];
      try discriminate.
    right. exists ifs. auto.
  - injection Hrun as <-. auto.
Qed.

(** X2.  The links link parsing returns are as many as the interface
    classes, their ids are ["interface1"], ["interface2"], ... and so
    pairwise distinct, and their names are pairwise distinct when the class
    keys are. *)
Theorem parse_links_ids_and_names_distinct (md : value)
    (ifs : list (pystr * value)) (links : list network_model.Link) :
  getv md (lit "interfaces") = VDict ifs ->
  parse_links md = Ok links ->
  List.length links = List.length ifs
  /\ map network_model.id links
     = map (fun k => lit "interface" ++ str_of_nat k)
         (seq 1 (List.length ifs))
  /\ NoDup (map network_model.id links)
  /\ (NoDup (map fst ifs) -> NoDup (map network_model.name links)).
Proof.
  intros Hifs Hrun.
  assert (Hloop : links_loop str_upper ifs (map fst ifs) 0 [] = Ok links).
  { destruct (parse_links_mapping _ Hrun) as [->|(ifs' & Hifs' & Hloop)].
    - unfold _net_parse_links in Hrun. destruct md; try discriminate.
      rewrite py_get_dict in Hrun. cbn [bind] in Hrun.
      fold (getv (VDict d) (lit "interfaces")) in Hrun.
      rewrite Hifs in Hrun. destruct ifs; [reflexivity|].
      apply links_loop_names in Hrun. discriminate.
    - rewrite Hifs in Hifs'. injection Hifs' as <-. exact Hloop. }
  pose proof (links_loop_ids _ _ _ _ Hloop) as Hids.
  pose proof (links_loop_names _ _ _ _ _ Hloop) as Hnames.
  cbn [map app] in Hids, Hnames. rewrite length_map in Hids.
  assert (Hlen : List.length links = List.length ifs).
  { rewrite <- (length_map network_model.id), Hids, length_map, length_seq.
    reflexivity. }
  split; [exact Hlen|]. split; [exact Hids|]. split.
  - rewrite Hids. apply NoDup_map_injective; [|apply seq_NoDup].
    intros x y H. apply app_inv_head in H. apply str_of_nat_inj. exact H.
  - intros Hdup. rewrite Hnames.
    apply NoDup_map_injective; [|exact Hdup].
    intros x y H. apply app_inv_head in H. exact H.
Qed.

Lemma parse_services_unfold (d : list (pystr * value)) :
  _net_parse_services (VDict d)
  = if truthy (field d (lit "dns")) then
      nameservers <- py_get (field d (lit "dns")) (lit "nameservers")
                       (VList []) ;;
      Ok [{| network_model.addresses := nameservers;
             network_model.search := VNone |}]
    else Ok [].
Proof.
  unfold _net_parse_services. rewrite py_get_dict. cbn [bind].
  fold (getv (VDict d) (lit "dns")). fold (field d (lit "dns")).
  destruct (truthy (field d (lit "dns"))); reflexivity.
Qed.

(** X3.  When subnet parsing and service parsing both return, every network
    of the class ["public"] carries the nameservers of the one service. *)
Theorem public_networks_carry_the_service_nameservers
    (d : list (pystr * value)) (nets : list network_model.Network)
    (svcs : list network_model.NameServerService) :
  parse_subnets (VDict d) = Ok nets ->
  _net_parse_services (VDict d) = Ok svcs ->
  Forall
    (fun n =>
       network_model.link n = lit "Network public" ->
       exists s,
         svcs = [s] /\
         network_model.search s = VNone /\
         network_model.dns_nameservers n = network_model.addresses s)
    nets.
Proof.
  intros Hnets Hsvcs. rewrite parse_services_unfold in Hsvcs.
  destruct (truthy (field d (lit "dns"))) eqn:Hdns.
  - inv_bind Hsvcs as nameservers Hns.
    apply py_get_ok in Hns. destruct Hns as [_ ->]. injection Hsvcs as <-.
    apply parse_subnets_emitted in Hnets.
    eapply Forall_impl; [|exact Hnets]. intros n Hn Hlink.
    destruct Hn as (nic_type & descriptors & nic & ip_version & subnet & rs
                    & cidr & _ & _ & _ & _ & _ & _ & _ & ->).
    cbn [network_of network_model.link] in Hlink.
    change (lit "Network public") with (lit "Network " ++ lit "public")
      in Hlink.
    apply app_inv_head in Hlink. subst nic_type.
    eexists. split; [reflexivity|]. split; reflexivity.
  - rewrite parse_subnets_short_circuit in Hnets by auto.
    injection Hnets as <-. constructor.
Qed.

(** X4.  A document with interfaces and no [dns]: when link parsing
    returns, the model holds its links and neither networks nor services,
    the addresses of the interfaces being left out; when link parsing
    raises, so does [get_network_details_v2]. *)
Theorem network_details_without_dns (d : list (pystr * value)) :
  truthy (field d (lit "interfaces")) = true ->
  truthy (field d (lit "dns")) = false ->
  details (VDict d)
  = match parse_links (VDict d) with
    | Ok links => Ok (Some {| network_model.links := links;
                              network_model.networks := [];
                              network_model.services := [] |})
    | Raise ex => Raise ex
    end.
Proof.
  intros Hifs Hdns.
  unfold get_network_details_v2, network_details_v2_of.
  rewrite py_get_dict. cbn [bind].
  fold (getv (VDict d) (lit "interfaces")). fold (field d (lit "interfaces")).
  rewrite Hifs. cbn [negb].
  destruct (parse_links (VDict d)) as [links|ex] eqn:Hlinks; cbn [bind];
    [|reflexivity].
  pose proof (parse_links_nonempty str_upper (VDict d) Hifs Hlinks) as Hne.
  rewrite parse_subnets_short_circuit by auto.
  rewrite parse_services_unfold, Hdns.
  destruct links; [contradiction|reflexivity].
Qed.

(** X5.  On a truthy [interfaces], [get_network_details_v2] returns a model
    exactly when each of the three derivations returns, and raises
    otherwise: it never returns [None] there, nor a model without the part
    that failed. *)
Theorem network_details_all_or_nothing (d : list (pystr * value)) :
  truthy (field d (lit "interfaces")) = true ->
  is_ok (details (VDict d))
  = is_ok (parse_links (VDict d)) && is_ok (parse_subnets (VDict d))
    && is_ok (_net_parse_services (VDict d))
  /\ details (VDict d) <> Ok None.
Proof.
  intros Hifs.
  unfold get_network_details_v2, network_details_v2_of.
  rewrite py_get_dict. cbn [bind].
  fold (getv (VDict d) (lit "interfaces")). fold (field d (lit "interfaces")).
  rewrite Hifs. cbn [negb].
  destruct (parse_links (VDict d)) as [links|e] eqn:Hlinks; cbn [bind is_ok];
    [|split; [reflexivity|discriminate]].
  pose proof (parse_links_nonempty str_upper (VDict d) Hifs Hlinks) as Hne.
  destruct links as [|l links]; [contradiction|]. cbn [List.length Nat.eqb].
  destruct (parse_subnets (VDict d)); cbn [bind is_ok andb];
    [|split; [reflexivity|discriminate]].
  destruct (_net_parse_services (VDict d)); cbn [bind is_ok];
    split; (reflexivity || discriminate).
Qed.

End MapperComposition.

(** ** More on the admin password *)

Lemma lstrip_idempotent (s : pystr) : lstrip (lstrip s) = lstrip s.
Proof.
  induction s as [|c s IH]; [reflexivity|]. cbn [lstrip].
  destruct (is_space c) eqn:E; [exact IH|]. cbn [lstrip]. rewrite E.
  reflexivity.
Qed.

(** [lstrip] removes a prefix. *)
Lemma lstrip_suffix (s : pystr) : exists p, s = p ++ lstrip s.
Proof.
  induction s as [|c s (p & Hs)]; [exists []; auto|]. cbn [lstrip].
  destruct (is_space c).
  - exists (c :: p). cbn [app]. rewrite <- Hs. reflexivity.
  - exists []. reflexivity.
Qed.

Lemma lstrip_starts_clean (s : pystr) : starts_clean (lstrip s) = true.
Proof.
  induction s as [|c s IH]; [reflexivity|]. cbn [lstrip].
  destruct (is_space c) eqn:E; [exact IH|]. cbn [starts_clean].
  rewrite E. reflexivity.
Qed.

Lemma lstrip_of_clean (s : pystr) : starts_clean s = true -> lstrip s = s.
Proof.
  destruct s as [|c s]; [reflexivity|]. cbn [starts_clean lstrip].
  destruct (is_space c); [discriminate|reflexivity].
Qed.

(** [rstrip] removes a suffix. *)
Lemma rstrip_prefix (s : pystr) : exists q, s = rstrip s ++ q.
Proof.
  unfold rstrip. destruct (lstrip_suffix (rev s)) as (p & Hp).
  exists (rev p). rewrite <- rev_app_distr, <- Hp, rev_involutive.
  reflexivity.
Qed.

Lemma rstrip_starts_clean (s : pystr) :
  starts_clean s = true -> starts_clean (rstrip s) = true.
Proof.
  destruct (rstrip_prefix s) as (q & Hq). intros Hs.
  destruct (rstrip s) as [|c r]; [reflexivity|].
  rewrite Hq in Hs. exact Hs.
Qed.

Lemma rstrip_idempotent (s : pystr) : rstrip (rstrip s) = rstrip s.
Proof.
  unfold rstrip. rewrite rev_involutive, lstrip_idempotent. reflexivity.
Qed.

(** Stripping twice is stripping once. *)
Lemma strip_idempotent (s : pystr) : strip (strip s) = strip s.
Proof.
  unfold strip.
  rewrite (lstrip_of_clean (rstrip (lstrip s)))
    by (apply rstrip_starts_clean, lstrip_starts_clean).
  apply rstrip_idempotent.
Qed.

Section PasswordAttempts.

Variable interval : Type.
Variable sleep_rejects : interval -> bool.
Variable transport : nat -> pystr -> result (list byte).
Variable get_as_string : list byte -> result (option pystr).
Variable CONF : Config interval.

Local Abbreviation loop :=
  (password_loop sleep_rejects transport get_as_string CONF).
Local Abbreviation url := (password_url CONF).
Local Abbreviation secs := (retry_count_interval CONF).

(** The ways one turn of the loop can go, from the state [w]: the request
    is always made; the turn ends the loop with the stripped text of the
    reply, or goes on after a blank reply, or goes on after a handler has
    slept, or ends on the password held if a [RequestException] handler
    finds one, or raises out of a handler. *)
Lemma password_loop_turn (n : nat) (password : option pystr)
    (w : probe interval) :
  let asked := {| requested := requested w ++ [url]; slept := slept w |} in
  let rested := {| requested := requested w ++ [url];
                   slept := slept w ++ [secs] |} in
  (exists body s,
     transport (List.length (requested w)) url = Ok body /\
     get_as_string body = Ok (Some s) /\
     strip s <> [] /\
     loop (S n) password w = (Ok (Some (strip s)), asked))
  \/ loop (S n) password w = loop n (Some []) asked
  \/ loop (S n) password w = loop n password rested
  \/ (text_truthy password = true /\
      loop (S n) password w = (Ok password, rested))
  \/ (exists ex, loop (S n) password w = (Raise ex, asked)).
Proof.
  cbv zeta. cbn [password_loop].
  unfold mbind, try_except, _get_data, lift, ret, raise, time_sleep,
    status_code, py_strip.
  fold url. fold secs.
  destruct (transport (List.length (requested w)) url)
    as [body|[[code|]|]] eqn:Hbody;
    [destruct (get_as_string body) as [[s|]|[[code|]|]] eqn:Htext| | |].
  1: { destruct (strip s) as [|c s'] eqn:Hs.
       - right; left. reflexivity.
       - left. exists body, s. rewrite Hs.
         split; [reflexivity|]. split; [exact Htext|].
         split; [discriminate|reflexivity]. }
  all: try destruct (sleep_rejects secs); unfold ret; cbn [requested slept];
    try (right; right; right; right; eexists; reflexivity);
    try (right; right; left; reflexivity).
  all: destruct (text_truthy password) eqn:Hp; cbn [negb];
    [right; right; right; left; split; reflexivity
    |right; right; left; reflexivity].
Qed.

(** However the turns go, the loop asks at most [n] times, always for the
    password URL, at least once when [n] is not zero, and sleeps at most once
    per request, always for the configured interval. *)
Lemma password_loop_bounds :
  forall (n : nat) (password : option pystr) (w : probe interval)
         (r : result (option pystr)) (w' : probe interval),
    loop n password w = (r, w') ->
    exists k j,
      k <= n /\ j <= k /\ (0 < n -> 0 < k) /\
      requested w' = requested w ++ repeat url k /\
      slept w' = slept w ++ repeat secs j.
Proof.
  induction n as [|n IH]; intros password w r w' Hrun.
  - injection Hrun as <- <-. exists 0, 0. cbn [repeat].
    rewrite !app_nil_r. repeat split; lia.
  - destruct (password_loop_turn n password w)
      as [(body & s & _ & _ & _ & E)|[E|[E|[(_ & E)|(ex & E)]]]];
      rewrite E in Hrun.
    + injection Hrun as <- <-. exists 1, 0. cbn [requested slept repeat].
      rewrite app_nil_r. repeat split; lia.
    + apply IH in Hrun. destruct Hrun as (k & j & Hk & Hj & _ & Hreq & Hsl).
      exists (S k), j. cbn [requested slept repeat] in *.
      rewrite Hreq, Hsl, <- app_assoc. repeat split; lia.
    + apply IH in Hrun. destruct Hrun as (k & j & Hk & Hj & _ & Hreq & Hsl).
      exists (S k), (S j). cbn [requested slept repeat] in *.
      rewrite Hreq, Hsl, <- !app_assoc. repeat split; lia.
    + injection Hrun as <- <-. exists 1, 1. cbn [requested slept repeat].
      repeat split; lia.
    + injection Hrun as <- <-. exists 1, 0. cbn [requested slept repeat].
      rewrite app_nil_r. repeat split; lia.
Qed.

(** X6.  Whatever the transport answers, [get_admin_password] makes at most
    [retry_count] requests, all of them for [<base_url>/password], at least
    one when the count is positive, and sleeps at most once per request,
    each time for [retry_count_interval]. *)
Theorem get_admin_password_attempts_are_bounded :
  exists k j,
    k <= Z.to_nat (retry_count CONF) /\ j <= k /\
    ((0 < retry_count CONF)%Z -> 0 < k) /\
    requested
      (snd (get_admin_password sleep_rejects transport get_as_string CONF
              (fresh interval)))
    = repeat (password_url CONF) k /\
    slept
      (snd (get_admin_password sleep_rejects transport get_as_string CONF
              (fresh interval)))
    = repeat (retry_count_interval CONF) j.
Proof.
  unfold get_admin_password.
  destruct (loop (Z.to_nat (retry_count CONF)) None (fresh interval))
    as [r w'] eqn:Hrun.
  destruct (password_loop_bounds _ _ _ Hrun) as (k & j & Hk & Hj & Hpos & H).
  exists k, j. repeat split; try lia; apply H.
Qed.

(** X7.  With no base URL configured, which makes [load] give up before any
    fetch, [get_admin_password] still makes its requests, for the URL
    ["None/password"]. *)
Theorem get_admin_password_ignores_missing_url :
  metadata_base_url CONF = None ->
  (0 < retry_count CONF)%Z ->
  exists rest,
    requested
      (snd (get_admin_password sleep_rejects transport get_as_string CONF
              (fresh interval)))
    = lit "None/password" :: rest.
Proof.
  intros Hurl Hcount. unfold get_admin_password.
  destruct (loop (Z.to_nat (retry_count CONF)) None (fresh interval))
    as [r w'] eqn:Hrun.
  destruct (password_loop_bounds _ _ _ Hrun)
    as (k & j & _ & _ & Hpos & Hreq & _).
  destruct k as [|k]; [lia|]. cbn [fresh requested app repeat snd] in *.
  exists (repeat url k). rewrite Hreq. unfold password_url. rewrite Hurl.
  reflexivity.
Qed.

(** A non-empty password the loop returns, having started from none, is the
    stripped text of the reply to the last request. *)
Lemma password_loop_last_reply :
  forall (n : nat) (password : option pystr) (w : probe interval)
         (p : pystr) (w' : probe interval),
    text_truthy password = false ->
    loop n password w = (Ok (Some p), w') ->
    p <> [] ->
    exists body s,
      transport (List.length (requested w') - 1) url = Ok body /\
      get_as_string body = Ok (Some s) /\
      p = strip s.
Proof.
  induction n as [|n IH]; intros password w p w' Hfalsy Hrun Hp.
  - injection Hrun as -> <-. destruct p; [contradiction|discriminate].
  - destruct (password_loop_turn n password w)
      as [(body & s & Hbody & Htext & _ & E)|[E|[E|[(Ht & _)|(ex & E)]]]];
      try rewrite E in Hrun.
    + injection Hrun as <- <-. exists body, s. cbn [requested].
      rewrite length_app. cbn [List.length]. rewrite Nat.add_sub.
      split; [exact Hbody|split; [exact Htext|reflexivity]].
    + exact (IH (Some []) _ _ _ eq_refl Hrun Hp).
    + exact (IH _ _ _ _ Hfalsy Hrun Hp).
    + congruence.
    + discriminate.
Qed.

(** X8.  A non-empty password [get_admin_password] returns is the text of
    the reply to the last request it made, stripped, and has no whitespace
    left at either end. *)
Theorem get_admin_password_returns_the_last_reply (p : pystr) :
  fst (get_admin_password sleep_rejects transport get_as_string CONF
         (fresh interval)) = Ok (Some p) ->
  p <> [] ->
  exists body s,
    transport
      (List.length
         (requested
            (snd (get_admin_password sleep_rejects transport get_as_string
                    CONF (fresh interval)))) - 1)
      (password_url CONF) = Ok body /\
    get_as_string body = Ok (Some s) /\
    p = strip s /\
    strip p = p.
Proof.
  unfold get_admin_password.
  destruct (loop (Z.to_nat (retry_count CONF)) None (fresh interval))
    as [r w'] eqn:Hrun.
  cbn [fst snd]. intros -> Hp.
  destruct (@password_loop_last_reply _ None _ _ _ eq_refl Hrun Hp)
    as (body & s & Hbody & Htext & ->).
  exists body, s. repeat split; auto. apply strip_idempotent.
Qed.

(** A failed attempt, with a sleep the clock accepts: the loop sleeps and
    goes on, the password still [None]. *)
Lemma password_loop_failed_attempt (n : nat) (w : probe interval) :
  sleep_rejects secs = false ->
  failed_attempt transport get_as_string url (List.length (requested w)) ->
  loop (S n) None w
  = loop n None {| requested := requested w ++ [url];
                   slept := slept w ++ [secs] |}.
Proof.
  intros Hsleep Hfail. cbn [password_loop].
  unfold mbind, try_except, _get_data, lift, ret, raise, time_sleep,
    status_code, py_strip.
  fold url. fold secs.
  destruct Hfail as [(code & ->)|[->|(body & -> & ->)]];
    rewrite Hsleep; reflexivity.
Qed.

(** X9.  When every attempt fails in one of the handled ways and the clock
    accepts the interval, [get_admin_password] makes all [retry_count]
    requests, sleeps after each of them, the last included, and returns
    [None]. *)
Theorem get_admin_password_exhausts_its_retries :
  sleep_rejects (retry_count_interval CONF) = false ->
  (forall k, k < Z.to_nat (retry_count CONF) ->
     failed_attempt transport get_as_string (password_url CONF) k) ->
  get_admin_password sleep_rejects transport get_as_string CONF
    (fresh interval)
  = (Ok None,
     {| requested :=
          repeat (password_url CONF) (Z.to_nat (retry_count CONF));
        slept :=
          repeat (retry_count_interval CONF)
            (Z.to_nat (retry_count CONF)) |}).
Proof.
  intros Hsleep. unfold get_admin_password.
  change (repeat url (Z.to_nat (retry_count CONF)))
    with (requested (fresh interval)
          ++ repeat url (Z.to_nat (retry_count CONF))).
  change (repeat secs (Z.to_nat (retry_count CONF)))
    with (slept (fresh interval)
          ++ repeat secs (Z.to_nat (retry_count CONF))).
  change (forall k, k < Z.to_nat (retry_count CONF) ->
            failed_attempt transport get_as_string url k)
    with (forall k, k < Z.to_nat (retry_count CONF) ->
            failed_attempt transport get_as_string url
              (List.length (requested (fresh interval)) + k)).
  generalize (fresh interval) as w.
  induction (Z.to_nat (retry_count CONF)) as [|n IH]; intros w Hfail.
  - cbn [password_loop repeat]. rewrite !app_nil_r. destruct w; reflexivity.
  - rewrite password_loop_failed_attempt;
      [|exact Hsleep
       |rewrite <- (Nat.add_0_r (List.length (requested w)));
        apply Hfail; lia].
    rewrite IH.
    + cbn [requested slept repeat]. rewrite <- !app_assoc. reflexivity.
    + intros k Hk. cbn [requested]. rewrite length_app. cbn [List.length].
      replace (List.length (requested w) + 1 + k)
        with (List.length (requested w) + S k) by lia.
      apply Hfail. lia.
Qed.

End PasswordAttempts.

(** ** User data that cannot be encoded *)

(** X10.  [get_user_data] returns exactly when [user_data] is falsy or a
    string of Unicode scalar values; it raises on every other truthy value
    (a number, a list, a mapping) and on a string with a lone surrogate. *)
Theorem get_user_data_returns_exactly_on_text (d : list (pystr * value)) :
  is_ok (get_user_data (VDict d))
  = match field d (lit "user_data") with
    | VStr s => forallb encodable s
    | v => negb (truthy v)
    end.
Proof.
  unfold get_user_data. rewrite py_get_dict. cbn [bind].
  fold (getv (VDict d) (lit "user_data")). fold (field d (lit "user_data")).
  destruct (field d (lit "user_data")) as [|b|z|f|s|l|m]; cbn [truthy negb];
    try reflexivity.
  - destruct b; reflexivity.
  - destruct (negb (z =? 0)%Z); reflexivity.
  - destruct (negb (f =? 0)%float); reflexivity.
  - rewrite <- utf8_encode_defined.
    destruct s as [|c s]; [reflexivity|].
    destruct (utf8_encode (c :: s)); reflexivity.
  - destruct l; reflexivity.
  - destruct m; reflexivity.
Qed.

(** ** The getters after [load] *)

Section GettersAfterLoad.

Variable interval : Type.
Variable W : Type.
Variable base_load : W -> W.
Variable _get_cache_data : pystr -> M W (option pystr).
Variable json_loads : pystr -> result value.
Variable CONF : Config interval.

Local Abbreviation v1_json :=
  (percent_s (metadata_base_url CONF) ++ lit "/v1.json").
Local Abbreviation service_load :=
  (load base_load _get_cache_data json_loads CONF).
Local Abbreviation instance_id :=
  (GPortalService.get_instance_id _get_cache_data json_loads CONF).
Local Abbreviation host_name :=
  (GPortalService.get_host_name _get_cache_data json_loads CONF).
Local Abbreviation user_data :=
  (GPortalService.get_user_data _get_cache_data json_loads CONF).
Local Abbreviation public_keys :=
  (GPortalService.get_public_keys _get_cache_data json_loads CONF).

(** X11.  When the metadata endpoint answers an empty body (or one that
    decodes to [None]), [load] reports success, nothing being parsed; and
    wherever the cache holds that text, [get_instance_id], [get_host_name],
    [get_user_data] and [get_public_keys] each raise, [_get_meta_data]
    having returned [None]. *)
Theorem load_succeeds_on_an_empty_body (text : option pystr) (w w1 : W) :
  text_truthy (metadata_base_url CONF) = true ->
  text_truthy text = false ->
  _get_cache_data v1_json (base_load w) = (Ok text, w1) ->
  service_load w = (Ok true, w1)
  /\ forall w2 w3,
       _get_cache_data v1_json w2 = (Ok text, w3) ->
       instance_id w2 = (Raise OtherException, w3) /\
       host_name w2 = (Raise OtherException, w3) /\
       user_data w2 = (Raise OtherException, w3) /\
       public_keys w2 = (Raise OtherException, w3).
Proof.
  intros Hurl Htext Hcache.
  assert (Hmd : forall w2 w3,
            _get_cache_data v1_json w2 = (Ok text, w3) ->
            _get_meta_data _get_cache_data json_loads CONF w2
            = (Ok VNone, w3)).
  { intros w2 w3 H. unfold _get_meta_data, mbind. rewrite H, Htext.
    reflexivity. }
  split.
  - unfold load. rewrite Hurl. cbn [negb]. unfold try_except, mbind.
    rewrite (Hmd _ _ Hcache). reflexivity.
  - intros w2 w3 H.
    unfold GPortalService.get_instance_id, GPortalService.get_host_name,
      GPortalService.get_user_data, GPortalService.get_public_keys,
      GPortalService.of_meta_data, mbind.
    rewrite (Hmd _ _ H). repeat split; reflexivity.
Qed.

(** X12.  When fetching the document raises, [load] catches the exception
    and returns [False], while wherever the fetch raises [get_instance_id],
    [get_host_name], [get_user_data] and [get_public_keys] let the same
    exception through. *)
Theorem getters_propagate_what_load_catches (ex : exn) (w w1 : W) :
  text_truthy (metadata_base_url CONF) = true ->
  _get_cache_data v1_json (base_load w) = (Raise ex, w1) ->
  service_load w = (Ok false, w1)
  /\ forall w2 w3,
       _get_cache_data v1_json w2 = (Raise ex, w3) ->
       instance_id w2 = (Raise ex, w3) /\
       host_name w2 = (Raise ex, w3) /\
       user_data w2 = (Raise ex, w3) /\
       public_keys w2 = (Raise ex, w3).
Proof.
  intros Hurl Hcache. split.
  - unfold load. rewrite Hurl. cbn [negb].
    unfold try_except, mbind, _get_meta_data, mbind. rewrite Hcache.
    reflexivity.
  - intros w2 w3 H.
    unfold GPortalService.get_instance_id, GPortalService.get_host_name,
      GPortalService.get_user_data, GPortalService.get_public_keys,
      GPortalService.of_meta_data, mbind, _get_meta_data, mbind.
    rewrite H. repeat split; reflexivity.
Qed.

End GettersAfterLoad.

(** ** The further properties at concrete inputs *)

Lemma parse_subnets_one_network_per_block_witness :
  List.length TWO_CLASSES_NETWORKS
  = List.length (present_blocks TWO_CLASSES_INTERFACES
                   (map fst TWO_CLASSES_INTERFACES))
  /\ List.length TWO_CLASSES_NETWORKS = 3.
Proof.
  split; [|reflexivity].
  exact (proj2 (@parse_subnets_one_network_per_block ipv4_netmask_to_cidr
                  TWO_CLASSES TWO_CLASSES_INTERFACES TWO_CLASSES_NETWORKS
                  eq_refl eq_refl two_classes_subnets)).
Defined.

Lemma parse_links_ids_and_names_distinct_witness :
  NoDup (map network_model.id TWO_CLASSES_LINKS)
  /\ NoDup (map network_model.name TWO_CLASSES_LINKS).
Proof.
  destruct (@parse_links_ids_and_names_distinct ascii_upper
              (VDict TWO_CLASSES) TWO_CLASSES_INTERFACES TWO_CLASSES_LINKS
              eq_refl two_classes_links) as (_ & _ & Hids & Hnames).
  split; [exact Hids|]. apply Hnames. distinct_keys.
Defined.

Lemma public_networks_carry_the_service_nameservers_witness :
  Forall
    (fun n =>
       network_model.link n = lit "Network public" ->
       exists s,
         METADATA_SERVICES = [s] /\
         network_model.search s = VNone /\
         network_model.dns_nameservers n = network_model.addresses s)
    TWO_CLASSES_NETWORKS.
Proof.
  exact (@public_networks_carry_the_service_nameservers ipv4_netmask_to_cidr
           TWO_CLASSES TWO_CLASSES_NETWORKS METADATA_SERVICES
           two_classes_subnets eq_refl).
Defined.

Lemma network_details_without_dns_witness :
  get_network_details_v2 ascii_upper ipv4_netmask_to_cidr
    (VDict TWO_CLASSES_NO_DNS)
  = Ok (Some {| network_model.links := TWO_CLASSES_LINKS;
                network_model.networks := [];
                network_model.services := [] |}).
Proof.
  rewrite (@network_details_without_dns ascii_upper ipv4_netmask_to_cidr
             TWO_CLASSES_NO_DNS eq_refl eq_refl).
  vm_compute. reflexivity.
Defined.

Lemma network_details_all_or_nothing_witness :
  is_ok (get_network_details_v2 ascii_upper ipv4_netmask_to_cidr
           (VDict METADATA_NULL_ROUTES)) = false
  /\ get_network_details_v2 ascii_upper ipv4_netmask_to_cidr
       (VDict METADATA_NULL_ROUTES) <> Ok None.
Proof.
  destruct (@network_details_all_or_nothing ascii_upper ipv4_netmask_to_cidr
              METADATA_NULL_ROUTES eq_refl) as (Hok & Hnone).
  split; [|exact Hnone]. rewrite Hok. vm_compute. reflexivity.
Defined.

Lemma get_admin_password_ignores_missing_url_witness :
  exists rest,
    requested (snd (get_admin_password negative unreachable
                      ascii_get_as_string UNCONFIGURED (fresh Z)))
    = lit "None/password" :: rest.
Proof.
  apply get_admin_password_ignores_missing_url; reflexivity.
Defined.

Lemma get_admin_password_returns_the_last_reply_witness :
  exists body s,
    late_password 2 (password_url GPORTAL_CONF) = Ok body /\
    ascii_get_as_string body = Ok (Some s) /\
    lit "MySecretAdministratorPassword123!" = strip s /\
    strip (lit "MySecretAdministratorPassword123!")
    = lit "MySecretAdministratorPassword123!".
Proof.
  refine (@get_admin_password_returns_the_last_reply Z negative late_password
            ascii_get_as_string GPORTAL_CONF
            (lit "MySecretAdministratorPassword123!") _ _).
  - vm_compute. reflexivity.
  - vm_compute. discriminate.
Defined.

Lemma get_admin_password_exhausts_its_retries_witness :
  get_admin_password negative failing_server strict_ascii_get_as_string
    THREE_ATTEMPTS (fresh Z)
  = (Ok None,
     {| requested := repeat (password_url THREE_ATTEMPTS) 3;
        slept := repeat 4%Z 3 |}).
Proof.
  apply (@get_admin_password_exhausts_its_retries Z negative failing_server
           strict_ascii_get_as_string THREE_ATTEMPTS eq_refl).
  intros [|[|[|k]]] Hk.
  - left. exists 503%Z. reflexivity.
  - right; left. reflexivity.
  - right; right. exists [xff]. split; reflexivity.
  - exfalso. vm_compute in Hk. lia.
Defined.

Lemma load_succeeds_on_an_empty_body_witness :
  load (fun lookups => lookups) (counting_cache None) loads_empty_object
    GPORTAL_CONF 0 = (Ok true, 1)
  /\ GPortalService.get_instance_id (counting_cache None) loads_empty_object
       GPORTAL_CONF 1 = (Raise OtherException, 2).
Proof.
  destruct (@load_succeeds_on_an_empty_body Z nat (fun lookups => lookups)
              (counting_cache None) loads_empty_object GPORTAL_CONF None 0 1
              eq_refl eq_refl eq_refl) as (Hload & Hget).
  split; [exact Hload|]. exact (proj1 (Hget 1 2 eq_refl)).
Defined.

Lemma getters_propagate_what_load_catches_witness :
  load (fun lookups => lookups) failing_cache loads_empty_object
    GPORTAL_CONF 0 = (Ok false, 1)
  /\ GPortalService.get_public_keys failing_cache loads_empty_object
       GPORTAL_CONF 1 = (Raise (RequestException (Some 500%Z)), 2).
Proof.
  destruct (@getters_propagate_what_load_catches Z nat
              (fun lookups => lookups) failing_cache loads_empty_object
              GPORTAL_CONF (RequestException (Some 500%Z)) 0 1
              eq_refl eq_refl) as (Hload & Hget).
  split; [exact Hload|]. exact (proj2 (proj2 (proj2 (Hget 1 2 eq_refl)))).
Defined.

(** A lone surrogate in [user_data] makes [get_user_data] raise. *)
Example get_user_data_raises_on_a_lone_surrogate :
  get_user_data (VDict METADATA_SURROGATE) = Raise OtherException.
Proof. vm_compute. reflexivity. Qed.

(** The networks of [TWO_CLASSES], block by block: the network of the ipv6
    block of the public interface has the default route ["::/0"] through
    the gateway of that block, and the route of the document after it. *)
Lemma parse_subnets_routes_and_nameservers_witness :
  Forall2
    (fun (block : pystr * pystr * value) n =>
       network_model.link n = lit "Network " ++ fst (fst block) /\
       (str_eqb (fst (fst block)) (lit "public") = true ->
        network_model.routes n
        = [ {| network_model.network_cidr :=
                 VStr (if str_eqb (snd (fst block)) (lit "ipv4")
                       then lit "0.0.0.0/0" else lit "::/0");
               network_model.gateway := getv (snd block) (lit "gateway") |};
            METADATA_ROUTE ]))
    (present_blocks TWO_CLASSES_INTERFACES (map fst TWO_CLASSES_INTERFACES))
    TWO_CLASSES_NETWORKS.
Proof.
  eapply Forall2_impl;
    [|exact (@parse_subnets_routes_and_nameservers ipv4_netmask_to_cidr
               TWO_CLASSES TWO_CLASSES_NETWORKS eq_refl eq_refl
               two_classes_subnets)].
  intros [[nic_type ip_version] subnet] n (rs & Hrs & Hlink & _ & Hroutes).
  cbn [fst snd]. split; [exact Hlink|]. intros Hpublic.
  vm_compute in Hrs. injection Hrs as <-. cbv zeta in Hroutes.
  rewrite Hpublic in Hroutes. destruct Hroutes as [-> _]. reflexivity.
Defined.
